(** * The submission backend: [POST /api/data] and its background pipeline

    A shallow embedding of the Express server of the repository (the
    second half of [src/frontend/src/App.jsx], [backend/server.js] in the
    project layout): the request handler of [POST /api/data], the two
    chat-completion wrappers [generateCodeResponse] and
    [generateProblemDescription], the flashcard wrapper [createMochiCard]
    and the fire-and-forget task that joins them.

    The program is glue around three remote services, so the embedding is
    a trace semantics: every observable action of the server (the HTTP
    response, an outbound call, a console line) is an [Event]; an [async]
    function is a [Run], the events it performs together with the final
    state of the promise it returns.  The remote services and the process
    environment are a [World]; the two built-ins of the JavaScript host the
    code relies on ([JSON.parse] and the number-to-string conversion) are a
    [Host]. *)

From Stdlib Require Import String Ascii List Bool NArith ZArith PeanoNat Lia.
From Stdlib Require Import DecimalString.
From Stdlib Require Import PrimFloat Uint63 FloatOps SpecFloat.
Import ListNotations.
Open Scope list_scope.
Open Scope string_scope.

Set Warnings "-register-all".

(** ** JavaScript values *)

Module Js.

(** The values that reach the server: JSON data ([null], booleans,
    numbers, strings, arrays, objects) and [undefined].  An object keeps
    its properties in insertion order; [lookup] below returns the first
    binding of a key. *)
Inductive JsValue : Type :=
| JUndefined
| JNull
| JBool (b : bool)
| JNum (n : float)
| JStr (s : string)
| JArr (items : list JsValue)
| JObj (fields : list (string * JsValue)).

Inductive ErrorClass : Type := PlainError | TypeError | SyntaxError.

(** What a [throw] carries: an instance of [Error] (of some class, with
    its [message]) or any other value. *)
Inductive Thrown : Type :=
| ErrorObject (cls : ErrorClass) (message : string)
| ThrownValue (v : JsValue).

(** The completion of a synchronous evaluation. *)
Inductive Completion (A : Type) : Type :=
| Return (a : A)
| Throws (e : Thrown).
Arguments Return {A} a.
Arguments Throws {A} e.

Definition cbind {A B} (c : Completion A) (k : A -> Completion B) : Completion B :=
  match c with
  | Return a => k a
  | Throws e => Throws e
  end.

Fixpoint lookup (k : string) (fields : list (string * JsValue)) : option JsValue :=
  match fields with
  | [] => None
  | (k', v) :: rest => if String.eqb k k' then Some v else lookup k rest
  end.

Definition has_own (k : string) (fields : list (string * JsValue)) : bool :=
  match lookup k fields with
  | Some _ => true
  | None => false
  end.

(** [+0], [-0] and [NaN] are the falsy numbers. *)
Definition number_falsy (n : float) : bool :=
  PrimFloat.is_zero n || PrimFloat.is_nan n.

(** ToBoolean: the test behind [!v] and [if (v)]. *)
Definition truthy (v : JsValue) : bool :=
  match v with
  | JUndefined | JNull => false
  | JBool b => b
  | JNum n => negb (number_falsy n)
  | JStr s => negb (String.eqb s "")
  | JArr _ | JObj _ => true
  end.

Definition is_nullish (v : JsValue) : bool :=
  match v with
  | JUndefined | JNull => true
  | _ => false
  end.

Definition describe_nullish (v : JsValue) : string :=
  match v with
  | JNull => "null"
  | _ => "undefined"
  end.

(** [v.k] for a property name [k] that no prototype defines and that is
    neither an index nor [length] (the server reads [message],
    [description], [choices], [content], [solutionExplanation], [code]
    and [id]): a [TypeError] on [undefined] and [null], the own property
    of an object, [undefined] on everything else.  The message is V8's. *)
Definition GetField (v : JsValue) (k : string) : Completion JsValue :=
  match v with
  | JUndefined | JNull =>
      Throws (ErrorObject TypeError
                ("Cannot read properties of " ++ describe_nullish v ++
                 " (reading '" ++ k ++ "')"))
  | JObj fields =>
      Return (match lookup k fields with Some x => x | None => JUndefined end)
  | _ => Return JUndefined
  end.

(** [v[0]]: the first element of an array, the first character of a
    string, the property ["0"] of an object. *)
Definition GetIndex0 (v : JsValue) : Completion JsValue :=
  match v with
  | JUndefined | JNull =>
      Throws (ErrorObject TypeError
                ("Cannot read properties of " ++ describe_nullish v ++
                 " (reading '0')"))
  | JArr items => Return (match items with x :: _ => x | [] => JUndefined end)
  | JStr (String c _) => Return (JStr (String c ""))
  | JObj fields =>
      Return (match lookup "0" fields with Some x => x | None => JUndefined end)
  | _ => Return JUndefined
  end.

(** [v?.k]: [undefined] when [v] is nullish, [v.k] otherwise. *)
Definition GetFieldOpt (v : JsValue) (k : string) : JsValue :=
  match v with
  | JObj fields => match lookup k fields with Some x => x | None => JUndefined end
  | _ => JUndefined
  end.

Section Conversions.

(** Number::toString of the host (shortest round-trip decimal). *)
Variable Number_toString : float -> string.

Definition cannot_convert : Thrown :=
  ErrorObject TypeError "Cannot convert object to primitive value".

(** ToString of a value built from JSON data.  An array is joined with
    commas, [null] and [undefined] elements giving the empty string.  A
    plain object gives ["[object Object]"] through
    [Object.prototype.toString], unless it has an own property
    [toString]: JSON data is never callable, so the conversion finds no
    method and throws. *)
Fixpoint ToString (v : JsValue) : Completion string :=
  match v with
  | JUndefined => Return "undefined"
  | JNull => Return "null"
  | JBool true => Return "true"
  | JBool false => Return "false"
  | JNum n => Return (Number_toString n)
  | JStr s => Return s
  | JArr items =>
      match items with
      | [] => Return ""
      | x :: rest =>
          cbind (if is_nullish x then Return "" else ToString x) (fun s =>
          cbind ((fix join (l : list JsValue) : Completion string :=
                    match l with
                    | [] => Return ""
                    | y :: l' =>
                        cbind (if is_nullish y then Return "" else ToString y) (fun t =>
                        cbind (join l') (fun r => Return ("," ++ t ++ r)))
                    end) rest)
                (fun r => Return (s ++ r)))
      end
  | JObj fields =>
      if has_own "toString" fields then Throws cannot_convert
      else Return "[object Object]"
  end.

(** [s + v] with a string on the left: [v] is converted and appended. *)
Definition plus (s : string) (v : JsValue) : Completion string :=
  cbind (ToString v) (fun t => Return (s ++ t)).

End Conversions.

End Js.

(** ** [Buffer.from(s).toString("base64")] *)

Module Base64.

Definition alphabet : string :=
  "ABCDEFGHIJKLMNOPQRSTUVWXYZabcdefghijklmnopqrstuvwxyz0123456789+/".

Definition digit (n : N) : ascii :=
  match String.get (N.to_nat n) alphabet with
  | Some c => c
  | None => "="%char
  end.

Definition cons4 (a b c d : ascii) (rest : string) : string :=
  String a (String b (String c (String d rest))).

(** Three bytes give four digits; a last group of one or two bytes is
    padded with [=]. *)
Fixpoint encode_bytes (bytes : list N) : string :=
  match bytes with
  | [] => ""
  | [a] =>
      let n := (a * 65536)%N in
      cons4 (digit (n / 262144)) (digit ((n / 4096) mod 64)) "=" "=" ""
  | [a; b] =>
      let n := (a * 65536 + b * 256)%N in
      cons4 (digit (n / 262144)) (digit ((n / 4096) mod 64))
            (digit ((n / 64) mod 64)) "=" ""
  | a :: b :: c :: rest =>
      let n := (a * 65536 + b * 256 + c)%N in
      cons4 (digit (n / 262144)) (digit ((n / 4096) mod 64))
            (digit ((n / 64) mod 64)) (digit (n mod 64))
            (encode_bytes rest)
  end.

Definition encode (s : string) : string :=
  encode_bytes (map N_of_ascii (list_ascii_of_string s)).

End Base64.

(** ** Promises and [async] functions *)

Module Async.
Import Js.

(** The state a promise ends in.  [Pending] is a promise that never
    settles: the server sets no timeout on its outbound calls. *)
Inductive Settled (A : Type) : Type :=
| Fulfilled (a : A)
| Rejected (e : Thrown)
| Pending.
Arguments Fulfilled {A} a.
Arguments Rejected {A} e.
Arguments Pending {A}.

Section Runs.

Variable E : Type.

(** One call of an [async] function: the events it performs, in order;
    whether it gave up control at an [await] before its promise
    settled; the final state of its promise. *)
Record Run (A : Type) : Type := mkRun {
  events : list E;
  suspended : bool;
  settled : Settled A
}.
Arguments mkRun {A} events suspended settled.
Arguments events {A} r.
Arguments suspended {A} r.
Arguments settled {A} r.

Definition ret {A} (a : A) : Run A := mkRun [] false (Fulfilled a).

Definition throw {A} (e : Thrown) : Run A := mkRun [] false (Rejected e).

Definition emit (ev : E) : Run unit := mkRun [ev] false (Fulfilled tt).

(** A synchronous evaluation inside a function body. *)
Definition lift {A} (c : Completion A) : Run A :=
  match c with
  | Return a => ret a
  | Throws e => throw e
  end.

(** [await p] for a promise [p] of some other party. *)
Definition await {A} (p : Settled A) : Run A := mkRun [] true p.

(** Sequencing: what follows runs only once the first part is
    fulfilled. *)
Definition bind {A B} (m : Run A) (k : A -> Run B) : Run B :=
  match settled m with
  | Fulfilled a =>
      let r := k a in
      mkRun (events m ++ events r) (suspended m || suspended r) (settled r)
  | Rejected e => mkRun (events m) (suspended m) (Rejected e)
  | Pending => mkRun (events m) (suspended m) Pending
  end.

(** [try { m } catch (error) { h error }]. *)
Definition try_catch {A} (m : Run A) (h : Thrown -> Run A) : Run A :=
  match settled m with
  | Rejected e =>
      let r := h e in
      mkRun (events m ++ events r) (suspended m || suspended r) (settled r)
  | _ => m
  end.

(** [await Promise.all([p, q])], where the calls that made [p] and [q]
    were evaluated in this order.  Both calls are made before the join
    waits.  The join is rejected by the promise that is rejected first:
    one rejected before it ever suspended was rejected at its call, and
    of two that were rejected after suspending, [q_first] tells which
    outbound call completed first. *)
Definition Promise_all {A B} (q_first : bool) (p : Run A) (q : Run B) : Run (A * B) :=
  mkRun (events p ++ events q) true
    match settled p, settled q with
    | Fulfilled a, Fulfilled b => Fulfilled (a, b)
    | Rejected e, Fulfilled _ => Rejected e
    | Rejected e, Pending => Rejected e
    | Fulfilled _, Rejected e => Rejected e
    | Pending, Rejected e => Rejected e
    | Rejected e1, Rejected e2 =>
        if negb (suspended p) then Rejected e1
        else if negb (suspended q) then Rejected e2
        else if q_first then Rejected e2 else Rejected e1
    | Fulfilled _, Pending => Pending
    | Pending, Fulfilled _ => Pending
    | Pending, Pending => Pending
    end.

(** A call of an [async] function whose promise is dropped: the caller
    continues at once and sees neither result nor rejection.  The
    events of the task are appended to the caller's, which is their
    order when, as in the handler, nothing follows the call. *)
Definition spawn {A} (m : Run A) : Run unit :=
  mkRun (events m) false (Fulfilled tt).

End Runs.

Arguments mkRun {E A} events suspended settled.
Arguments events {E A} r.
Arguments suspended {E A} r.
Arguments settled {E A} r.
Arguments ret {E A} a.
Arguments throw {E A} e.
Arguments emit {E} ev.
Arguments lift {E A} c.
Arguments await {E A} p.
Arguments bind {E A B} m k.
Arguments try_catch {E A} m h.
Arguments Promise_all {E A B} q_first p q.
Arguments spawn {E A} m.

Declare Scope run_scope.
Delimit Scope run_scope with run.
Notation "x <- m ;; k" := (bind m (fun x => k))
  (at level 61, m at next level, right associativity) : run_scope.
Notation "' p <- m ;; k" := (bind m (fun p => k))
  (at level 61, p pattern, m at next level, right associativity) : run_scope.
Notation "m ;; k" := (bind m (fun _ => k))
  (at level 61, right associativity) : run_scope.

End Async.

(** ** The server *)

Module Server.
Import Js Async.
Open Scope run_scope.

(** *** The services around the server *)

Record ChatMessage : Type := mkChatMessage {
  role : string;
  content : string
}.

(** The argument of [openai.chat.completions.create]. *)
Record ChatRequest : Type := mkChatRequest {
  model : string;
  messages : list ChatMessage;
  response_format : option JsValue
}.

(** The arguments of [fetch]; [body_json] is the value that the code
    hands to [JSON.stringify] to make the body. *)
Record FetchRequest : Type := mkFetchRequest {
  url : string;
  method : string;
  headers : list (string * string);
  body_json : JsValue
}.

(** A [Response]: its status and the reading of its body, on which
    both [text()] and [json()] wait. *)
Record FetchResponse : Type := mkFetchResponse {
  status : nat;
  payload : Settled string
}.

Definition ok (r : FetchResponse) : bool :=
  (200 <=? status r)%nat && (status r <=? 299)%nat.

Inductive Level : Type := log | warn | error.

Inductive LogArg : Type :=
| text (s : string)
| thrown (e : Thrown).

Inductive Event : Type :=
| Respond (code : nat) (json : JsValue)
    (* res.status(code).json(json); res.json(json) is code 200 *)
| ChatCompletionsCreate (req : ChatRequest)
    (* openai.chat.completions.create(req) is called *)
| Fetch (req : FetchRequest)
    (* fetch(url, options) is called *)
| Console (level : Level) (args : list LogArg).

(** The process environment and the behaviour of the remote services
    during one request. *)
Record World : Type := mkWorld {
  MOCHI_API_KEY : option string;
  chat_completions_create : ChatRequest -> Settled JsValue;
  fetch : FetchRequest -> Settled FetchResponse;
  (* of the two concurrent completion calls, whether the one of
     generateCodeResponse completes before the other *)
  extraction_completes_first : bool
}.

(** The built-ins of the host that the code calls. *)
Record Host : Type := mkHost {
  JSON_parse : string -> Completion JsValue;
  Number_toString : float -> string
}.

Definition string_of_nat (n : nat) : string :=
  NilZero.string_of_uint (Nat.to_uint n).

(** [error instanceof Error ? error.message : "Unknown error occurred"] *)
Definition errorMessage (e : Thrown) : string :=
  match e with
  | ErrorObject _ message => message
  | ThrownValue _ => "Unknown error occurred"
  end.

(** *** Constants of the source *)

Definition manualJsonSchema : JsValue :=
  JObj [
    ("name", JStr "code_solution_response");
    ("strict", JBool true);
    ("schema", JObj [
       ("type", JStr "object");
       ("properties", JObj [
          ("solutionExplanation", JObj [
             ("type", JStr "string");
             ("description", JStr "The solution and explanation text")]);
          ("code", JObj [
             ("type", JStr "string");
             ("description", JStr "The code block portion only")])]);
       ("required", JArr [JStr "solutionExplanation"; JStr "code"]);
       ("additionalProperties", JBool false)])].

Definition code_prompt : string :=
  "Please separate the solution/explanation and the code in the following message: I want to be able to later paste the code in a markdown editor. For the explanation, keep it minimal. Only adjust my explanation for readability purposes. Don't add anything additional to the explanation.".

Definition problem_prompt : string :=
  "The following text is a description of a problem that is slightly misformatted. All that I need you to do is clean up the formatting of the text so I can paste it in a markdown editor. Put the examples and constraints in seperate markdown blocks (by seperate I mean split the examples into their own markdown blocks). There will be irrelevant text that comes up because I copy pasted the entire site. You can remove that text that seems like it was copy-pasted on accident. Just bold the title of the problem (don't use any # or header markdown things). DO NOT modify anything else including the actualy words themselves or anything else. JUST focus on formatting. Also if the contraint is seemingly a random number like 104 or 103 or something it could actually be 10^4 or 10^3. When I copy and paste the exponents are removed so that's why they appear like that.".

Definition DECK_ID : string := "QKtBzxLx".

Definition mochi_url : string := "https://app.mochi.cards/api/cards/".

Definition LF : string := String (ascii_of_nat 10) "".

Definition card_question : string :=
  "What is the key techinque to solve this problem?" ++ LF.

Definition validation_error : JsValue :=
  JObj [("error", JStr "Message is required")].

Definition acknowledgment : JsValue :=
  JObj [("status", JStr "submitted"); ("message", JStr "Now processing")].

(** *** Observations on a trace *)

Definition is_outbound (ev : Event) : bool :=
  match ev with
  | ChatCompletionsCreate _ | Fetch _ => true
  | Respond _ _ | Console _ _ => false
  end.

(** The outbound calls of a trace, in order. *)
Definition outbound (t : list Event) : list Event := filter is_outbound t.

Definition is_response (ev : Event) : bool :=
  match ev with
  | Respond _ _ => true
  | _ => false
  end.

(** An event that leaves the HTTP response alone. *)
Definition quiet (ev : Event) : Prop := is_response ev = false.

(** The HTTP responses of a trace, in order. *)
Definition responses (t : list Event) : list (nat * JsValue) :=
  flat_map (fun ev => match ev with
                      | Respond code json => [(code, json)]
                      | _ => []
                      end) t.

(** [req.body.k] for a body that is an object. *)
Definition submitted (fields : list (string * JsValue)) (k : string) : JsValue :=
  GetFieldOpt (JObj fields) k.

Section Program.

Variable host : Host.
Variable w : World.

Definition code_request (prompt : string) : ChatRequest :=
  {| model := "gpt-5-mini";
     messages := [ {| role := "user"; content := prompt |} ];
     response_format :=
       Some (JObj [("type", JStr "json_schema");
                   ("json_schema", manualJsonSchema)]) |}.

Definition problem_request (prompt : string) : ChatRequest :=
  {| model := "gpt-5-mini";
     messages := [ {| role := "user"; content := prompt |} ];
     response_format := None |}.

(** [response.choices[0]?.message?.content] *)
Definition first_choice_content (response : JsValue) : Completion JsValue :=
  cbind (GetField response "choices") (fun choices =>
  cbind (GetIndex0 choices) (fun choice =>
  Return (GetFieldOpt (GetFieldOpt choice "message") "content"))).

Definition generateCodeResponse (message : JsValue) : Run Event JsValue :=
  prompt <- lift (plus (Number_toString host) code_prompt message) ;;
  emit (ChatCompletionsCreate (code_request prompt)) ;;
  response <- await (chat_completions_create w (code_request prompt)) ;;
  content <- lift (first_choice_content response) ;;
  if negb (truthy content) then
    throw (ErrorObject PlainError "No content returned")
  else
    source <- lift (ToString (Number_toString host) content) ;;
    lift (JSON_parse host source).

Definition generateProblemDescription (description : JsValue) : Run Event JsValue :=
  prompt <- lift (plus (Number_toString host) problem_prompt description) ;;
  emit (ChatCompletionsCreate (problem_request prompt)) ;;
  response <- await (chat_completions_create w (problem_request prompt)) ;;
  lift (first_choice_content response).

(** The [cardContent] of [createMochiCard]: a chain of [+] evaluated
    from the left. *)
Definition cardContent (problemDescription solutionExplanation codeSnippet : JsValue)
  : Completion string :=
  cbind (plus (Number_toString host) card_question problemDescription) (fun s1 =>
  let s2 := s1 ++ LF ++ "---" ++ LF in
  cbind (plus (Number_toString host) s2 solutionExplanation) (fun s3 =>
  let s4 := s3 ++ LF in
  let s5 := s4 ++ ("```python" ++ LF) in
  cbind (plus (Number_toString host) s5 codeSnippet) (fun s6 =>
  Return (s6 ++ (LF ++ "```"))))).

Definition card_request (key cardContent : string) : FetchRequest :=
  {| url := mochi_url;
     method := "POST";
     headers := [ ("Content-Type", "application/json");
                  ("Authorization", "Basic " ++ Base64.encode (key ++ ":")) ];
     body_json := JObj [ ("content", JStr cardContent);
                         ("deck-id", JStr DECK_ID);
                         ("archived?", JBool false) ] |}.

Definition createMochiCard (problemDescription solutionExplanation codeSnippet : JsValue)
  : Run Event JsValue :=
  match MOCHI_API_KEY w with
  | None | Some EmptyString =>
      emit (Console warn [text "Skipping Mochi card creation: MOCHI_API_KEY is missing."]) ;;
      ret JNull
  | Some key =>
      content <- lift (cardContent problemDescription solutionExplanation codeSnippet) ;;
      emit (Fetch (card_request key content)) ;;
      response <- await (fetch w (card_request key content)) ;;
      if negb (ok response) then
        errorText <- await (payload response) ;;
        throw (ErrorObject PlainError
                 ("Mochi API Error " ++ string_of_nat (status response) ++ ": " ++ errorText))
      else
        body <- await (payload response) ;;
        lift (JSON_parse host body)
  end.

(** The task that the handler starts and does not wait for. *)
Definition background (message description : JsValue) : Run Event unit :=
  try_catch
    ('(problemDescription, solutionExplanationAndCode) <-
        Promise_all (extraction_completes_first w)
          (generateProblemDescription description)
          (generateCodeResponse message) ;;
     solutionExplanation <- lift (GetField solutionExplanationAndCode "solutionExplanation") ;;
     code <- lift (GetField solutionExplanationAndCode "code") ;;
     emit (Console log [text "Creating Mochi card..."]) ;;
     mochiCard <- createMochiCard problemDescription solutionExplanation code ;;
     (if truthy mochiCard then
        id <- lift (cbind (GetField mochiCard "id") (ToString (Number_toString host))) ;;
        emit (Console log [text ("✅ Card created in Mochi: " ++ id)])
      else ret tt) ;;
     emit (Console log [text "✅ Processing completed successfully"]))
    (fun e =>
       emit (Console error [text "Error in background processing:"; thrown e]) ;;
       emit (Console error [text "Error details:"; text (errorMessage e)])).

(** [const { message, description } = req.body] *)
Definition destructure (body : JsValue) : Completion (JsValue * JsValue) :=
  if is_nullish body then
    Throws (ErrorObject TypeError
              ("Cannot destructure property 'message' of 'req.body' as it is " ++
               describe_nullish body ++ "."))
  else
    cbind (GetField body "message") (fun message =>
    cbind (GetField body "description") (fun description =>
    Return (message, description))).

(** The handler of [POST /api/data], applied to [req.body].  The parsers
    that the server installs ([express.json], [express.urlencoded]) leave
    an object there; the handler itself would answer [500] on a body that
    is [undefined]. *)
Definition post_api_data (body : JsValue) : Run Event unit :=
  try_catch
    ('(message, description) <- lift (destructure body) ;;
     if negb (truthy message) || negb (truthy description) then
       emit (Respond 400 validation_error)
     else
       emit (Respond 200 acknowledgment) ;;
       spawn (background message description))
    (fun e =>
       emit (Console error [text "Error handling request:"; thrown e]) ;;
       emit (Respond 500 (JObj [("error", JStr "Failed to submit request");
                                ("details", JStr (errorMessage e))]))).

End Program.

End Server.

(** ** A reference host

    [JSON.parse] and Number::toString belong to the JavaScript engine, and
    every statement about the server below holds for any [Host].  The
    closed examples need one to run; this is the engine's behaviour on a
    fragment: JSON texts whose numbers are integers of at most fifteen
    digits and whose strings have no [\u] escape (any other text is
    reported as a syntax error, with one message for all), and the
    printing of [NaN], the infinities and the integers below [2^53].  No
    example leaves the fragment. *)

Module Reference.
Import Js.

Definition quote : ascii := ascii_of_nat 34.
Definition backslash : ascii := ascii_of_nat 92.

Definition is_space (c : ascii) : bool :=
  let n := nat_of_ascii c in
  (n =? 32)%nat || (n =? 9)%nat || (n =? 10)%nat || (n =? 13)%nat.

Definition is_digit (c : ascii) : bool :=
  let n := nat_of_ascii c in (48 <=? n)%nat && (n <=? 57)%nat.

Fixpoint skip_space (l : list ascii) : list ascii :=
  match l with
  | c :: rest => if is_space c then skip_space rest else l
  | [] => []
  end.

Fixpoint span_digits (l : list ascii) : list ascii * list ascii :=
  match l with
  | c :: rest =>
      if is_digit c then
        let '(ds, tl) := span_digits rest in (c :: ds, tl)
      else ([], l)
  | [] => ([], [])
  end.

Definition digits_value (ds : list ascii) : Z :=
  fold_left (fun acc c => (acc * 10 + (Z.of_nat (nat_of_ascii c) - 48))%Z) ds 0%Z.

(** An integer literal: an optional minus sign, then [0] or a digit
    sequence that does not start with [0]. *)
Definition parse_number (l : list ascii) : option (JsValue * list ascii) :=
  let '(negative, l1) :=
    match l with
    | c :: rest => if Ascii.eqb c "-" then (true, rest) else (false, l)
    | [] => (false, l)
    end in
  let '(ds, rest) := span_digits l1 in
  let well_formed :=
    match ds with
    | [] => false
    | [_] => true
    | c :: _ => negb (Ascii.eqb c "0")
    end in
  let continues :=
    match rest with
    | c :: _ => Ascii.eqb c "." || Ascii.eqb c "e" || Ascii.eqb c "E"
    | [] => false
    end in
  if well_formed && negb continues && (length ds <=? 15)%nat then
    let x := PrimFloat.of_uint63 (Uint63.of_Z (digits_value ds)) in
    Some (JNum (if negative then PrimFloat.opp x else x), rest)
  else None.

Definition unescape (c : ascii) : option ascii :=
  if Ascii.eqb c quote then Some quote
  else if Ascii.eqb c backslash then Some backslash
  else if Ascii.eqb c "/" then Some "/"%char
  else if Ascii.eqb c "b" then Some (ascii_of_nat 8)
  else if Ascii.eqb c "f" then Some (ascii_of_nat 12)
  else if Ascii.eqb c "n" then Some (ascii_of_nat 10)
  else if Ascii.eqb c "r" then Some (ascii_of_nat 13)
  else if Ascii.eqb c "t" then Some (ascii_of_nat 9)
  else None.

(** The characters of a string literal after its opening quote. *)
Fixpoint parse_chars (l : list ascii) : option (string * list ascii) :=
  match l with
  | [] => None
  | c :: rest =>
      if Ascii.eqb c quote then Some ("", rest)
      else if Ascii.eqb c backslash then
        match rest with
        | e :: rest' =>
            match unescape e, parse_chars rest' with
            | Some x, Some (s, tl) => Some (String x s, tl)
            | _, _ => None
            end
        | [] => None
        end
      else if (nat_of_ascii c <? 32)%nat then None
      else
        match parse_chars rest with
        | Some (s, tl) => Some (String c s, tl)
        | None => None
        end
  end.

(** A later member with the same key replaces the value of the earlier
    one, in its place. *)
Fixpoint set_field (k : string) (v : JsValue) (fields : list (string * JsValue))
  : list (string * JsValue) :=
  match fields with
  | [] => [(k, v)]
  | (k', v') :: rest =>
      if String.eqb k k' then (k, v) :: rest else (k', v') :: set_field k v rest
  end.

Definition literal (word : string) (v : JsValue) (l : list ascii)
  : option (JsValue * list ascii) :=
  let n := String.length word in
  if String.eqb (string_of_list_ascii (firstn n l)) word
  then Some (v, skipn n l) else None.

Fixpoint parse_value (fuel : nat) (l : list ascii) : option (JsValue * list ascii) :=
  match fuel with
  | O => None
  | S fuel' =>
      match skip_space l with
      | [] => None
      | c :: rest =>
          if Ascii.eqb c "n" then literal "null" JNull (c :: rest)
          else if Ascii.eqb c "t" then literal "true" (JBool true) (c :: rest)
          else if Ascii.eqb c "f" then literal "false" (JBool false) (c :: rest)
          else if Ascii.eqb c quote then
            match parse_chars rest with
            | Some (s, tl) => Some (JStr s, tl)
            | None => None
            end
          else if Ascii.eqb c "[" then
            match skip_space rest with
            | c' :: tl =>
                if Ascii.eqb c' "]" then Some (JArr [], tl)
                else
                  match parse_items fuel' rest with
                  | Some (items, tl') => Some (JArr items, tl')
                  | None => None
                  end
            | [] => None
            end
          else if Ascii.eqb c "{" then
            match skip_space rest with
            | c' :: tl =>
                if Ascii.eqb c' "}" then Some (JObj [], tl)
                else
                  match parse_members fuel' [] rest with
                  | Some (fields, tl') => Some (JObj fields, tl')
                  | None => None
                  end
            | [] => None
            end
          else parse_number (c :: rest)
      end
  end

(** The elements of a non-empty array, up to its closing bracket. *)
with parse_items (fuel : nat) (l : list ascii) : option (list JsValue * list ascii) :=
  match fuel with
  | O => None
  | S fuel' =>
      match parse_value fuel' l with
      | Some (v, tl) =>
          match skip_space tl with
          | c :: tl' =>
              if Ascii.eqb c "]" then Some ([v], tl')
              else if Ascii.eqb c "," then
                match parse_items fuel' tl' with
                | Some (vs, tl'') => Some (v :: vs, tl'')
                | None => None
                end
              else None
          | [] => None
          end
      | None => None
      end
  end

(** The members of a non-empty object, up to its closing brace. *)
with parse_members (fuel : nat) (acc : list (string * JsValue)) (l : list ascii)
  : option (list (string * JsValue) * list ascii) :=
  match fuel with
  | O => None
  | S fuel' =>
      match skip_space l with
      | c :: tl =>
          if Ascii.eqb c quote then
            match parse_chars tl with
            | Some (k, tl1) =>
                match skip_space tl1 with
                | c1 :: tl2 =>
                    if Ascii.eqb c1 ":" then
                      match parse_value fuel' tl2 with
                      | Some (v, tl3) =>
                          match skip_space tl3 with
                          | c3 :: tl4 =>
                              if Ascii.eqb c3 "}" then Some (set_field k v acc, tl4)
                              else if Ascii.eqb c3 "," then
                                parse_members fuel' (set_field k v acc) tl4
                              else None
                          | [] => None
                          end
                      | None => None
                      end
                    else None
                | [] => None
                end
            | None => None
            end
          else None
      | [] => None
      end
  end.

Definition syntax_error : Thrown :=
  ErrorObject SyntaxError "Unexpected token or end of JSON input".

Definition JSON_parse (source : string) : Completion JsValue :=
  let l := list_ascii_of_string source in
  match parse_value (2 * length l + 2) l with
  | Some (v, tl) =>
      match skip_space tl with
      | [] => Return v
      | _ :: _ => Throws syntax_error
      end
  | None => Throws syntax_error
  end.

Definition string_of_Z (z : Z) : string :=
  NilZero.string_of_int (Z.to_int z).

Definition Number_toString (x : float) : string :=
  match Prim2SF x with
  | S754_zero _ => "0"
  | S754_infinity false => "Infinity"
  | S754_infinity true => "-Infinity"
  | S754_nan => "NaN"
  | S754_finite negative m e =>
      let magnitude :=
        if (0 <=? e)%Z then Some (Z.pos m * 2 ^ e)%Z
        else if (Z.pos m mod 2 ^ (- e) =? 0)%Z then Some (Z.pos m / 2 ^ (- e))%Z
        else None in
      match magnitude with
      | Some n =>
          if (n <? 2 ^ 53)%Z then string_of_Z (if negative then - n else n)
          else ""
      | None => ""
      end
  end.

Definition host : Server.Host :=
  {| Server.JSON_parse := JSON_parse;
     Server.Number_toString := Number_toString |}.

(** [s] between double quotes, to write JSON texts. *)
Definition quoted (s : string) : string :=
  String quote (s ++ String quote "").

(** *** Worlds for the examples *)

Import Async Server.

(** A chat completion with one choice, whose message has this content. *)
Definition completion (content : JsValue) : JsValue :=
  JObj [("id", JStr "chatcmpl-1");
        ("choices",
         JArr [JObj [("index", JNum 0%float);
                     ("message", JObj [("role", JStr "assistant");
                                       ("content", content)])]])].

(** A chat completion without any choice. *)
Definition no_choice : JsValue :=
  JObj [("id", JStr "chatcmpl-2"); ("choices", JArr [])].

(** The completion service answers the reformatting call (the one
    without a response format) and the extraction call as given. *)
Definition world (key : option string) (reformatting extraction : Settled JsValue)
    (mochi : Settled FetchResponse) : World :=
  {| MOCHI_API_KEY := key;
     chat_completions_create := fun req =>
       match response_format req with
       | None => reformatting
       | Some _ => extraction
       end;
     fetch := fun _ => mochi;
     extraction_completes_first := false |}.

Definition solution_text : string :=
  "{" ++ quoted "solutionExplanation" ++ ":" ++ quoted "Use a hash map." ++ "," ++
  quoted "code" ++ ":" ++ quoted "def two_sum(nums, target): pass" ++ "}".

Definition created : FetchResponse :=
  {| status := 200; payload := Fulfilled ("{" ++ quoted "id" ++ ":" ++ quoted "c4rd" ++ "}") |}.

(** No card credential, and no outbound call ever completes. *)
Definition silent : World := world None Pending Pending Pending.

(** Both completions arrive and the card service accepts the card. *)
Definition cooperative : World :=
  world (Some "s3cret")
        (Fulfilled (completion (JStr "**Two Sum**")))
        (Fulfilled (completion (JStr solution_text)))
        (Fulfilled created).

(** The reformatting succeeds and the extraction call is rejected. *)
Definition extraction_down : World :=
  world (Some "s3cret")
        (Fulfilled (completion (JStr "**Two Sum**")))
        (Rejected (ErrorObject PlainError "429 Too Many Requests"))
        (Fulfilled created).

(** The reformatting call returns a completion without content. *)
Definition reformatting_empty : World :=
  world (Some "s3cret")
        (Fulfilled no_choice)
        (Fulfilled (completion (JStr solution_text)))
        (Fulfilled created).

(** The extraction call returns JSON without [solutionExplanation]. *)
Definition extraction_partial : World :=
  world (Some "s3cret")
        (Fulfilled (completion (JStr "**Two Sum**")))
        (Fulfilled (completion (JStr ("{" ++ quoted "code" ++ ":" ++ quoted "x" ++ "}"))))
        (Fulfilled created).

Definition two_sum : JsValue :=
  JObj [("message", JStr "two sum solution...");
        ("description", JStr "Given an array...")].

(** The card that the pipeline posts in the [cooperative] world. *)
Definition two_sum_card : FetchRequest :=
  card_request "s3cret"
    ("What is the key techinque to solve this problem?" ++ LF ++
     "**Two Sum**" ++ LF ++ "---" ++ LF ++ "Use a hash map." ++ LF ++
     "```python" ++ LF ++ "def two_sum(nums, target): pass" ++ LF ++ "```").

(** ASCII white space of [String.prototype.trim]. *)
Definition is_white_space (c : ascii) : bool :=
  let n := nat_of_ascii c in
  (n =? 32)%nat || ((9 <=? n)%nat && (n <=? 13)%nat).

Definition whitespace_only (s : string) : bool :=
  forallb is_white_space (list_ascii_of_string s).

End Reference.

(** ** Kinds of outbound call *)

Module Calls.
Import Server.

Definition is_chat (ev : Event) : bool :=
  match ev with
  | ChatCompletionsCreate _ => true
  | _ => false
  end.

Definition is_fetch (ev : Event) : bool :=
  match ev with
  | Fetch _ => true
  | _ => false
  end.

(** An event that is no outbound call. *)
Definition silent_event (ev : Event) : Prop := is_outbound ev = false.

End Calls.

(** ** The stages of the background task *)

Module Stages.
Import Js Async Server.
Open Scope run_scope.

Section Stages.

Variable host : Host.
Variable w : World.

(** What the task does with the two joined results. *)
Definition after_join (problemDescription solutionExplanationAndCode : JsValue)
  : Run Event unit :=
  solutionExplanation <- lift (GetField solutionExplanationAndCode "solutionExplanation") ;;
  code <- lift (GetField solutionExplanationAndCode "code") ;;
  emit (Console log [text "Creating Mochi card..."]) ;;
  mochiCard <- createMochiCard host w problemDescription solutionExplanation code ;;
  (if truthy mochiCard then
     id <- lift (cbind (GetField mochiCard "id") (ToString (Number_toString host))) ;;
     emit (Console log [text ("✅ Card created in Mochi: " ++ id)])
   else ret tt) ;;
  emit (Console log [text "✅ Processing completed successfully"]).

(** The [catch] of the task. *)
Definition report (e : Thrown) : Run Event unit :=
  emit (Console error [text "Error in background processing:"; thrown e]) ;;
  emit (Console error [text "Error details:"; text (errorMessage e)]).

(** The log lines that end a task once the card call is fulfilled. *)
Definition closing_lines (mochiCard : JsValue) : Run Event unit :=
  (if truthy mochiCard then
     id <- lift (cbind (GetField mochiCard "id") (ToString (Number_toString host))) ;;
     emit (Console log [text ("✅ Card created in Mochi: " ++ id)])
   else ret tt) ;;
  emit (Console log [text "✅ Processing completed successfully"]).

End Stages.

End Stages.

(** ** The form of the client

    The React component [App] of [src/frontend/src/App.jsx]: its state,
    what its submit button shows, and [handleSubmit].  Strings are
    sequences of UTF-8 bytes, so [trim] removes, at both ends, the ASCII
    white space and the encodings of the other white space and line
    terminator code points. *)

Module Client.
Import Js Async.
Open Scope run_scope.

(** U+0009 to U+000D and U+0020. *)
Definition white1 (a : ascii) : bool :=
  let x := nat_of_ascii a in
  (x =? 32)%nat || ((9 <=? x)%nat && (x <=? 13)%nat).

(** U+00A0, encoded [C2 A0]. *)
Definition white2 (a b : ascii) : bool :=
  (nat_of_ascii a =? 194)%nat && (nat_of_ascii b =? 160)%nat.

(** U+1680 [E1 9A 80]; U+2000 to U+200A, U+2028, U+2029 and U+202F
    [E2 80 ..]; U+205F [E2 81 9F]; U+3000 [E3 80 80]; U+FEFF [EF BB BF]. *)
Definition white3 (a b c : ascii) : bool :=
  let x := nat_of_ascii a in
  let y := nat_of_ascii b in
  let z := nat_of_ascii c in
  ((x =? 225)%nat && (y =? 154)%nat && (z =? 128)%nat) ||
  ((x =? 226)%nat && (y =? 128)%nat &&
     (((128 <=? z)%nat && (z <=? 138)%nat) ||
      (z =? 168)%nat || (z =? 169)%nat || (z =? 175)%nat)) ||
  ((x =? 226)%nat && (y =? 129)%nat && (z =? 159)%nat) ||
  ((x =? 227)%nat && (y =? 128)%nat && (z =? 128)%nat) ||
  ((x =? 239)%nat && (y =? 187)%nat && (z =? 191)%nat).

Section Strip.

Variable two : ascii -> ascii -> bool.
Variable three : ascii -> ascii -> ascii -> bool.

(** Drops white space from the front, one code point at a time. *)
Fixpoint strip (l : list ascii) : list ascii :=
  match l with
  | [] => []
  | a :: l1 =>
      if white1 a then strip l1
      else
        match l1 with
        | b :: l2 =>
            if two a b then strip l2
            else
              match l2 with
              | c :: l3 => if three a b c then strip l3 else l
              | [] => l
              end
        | [] => l
        end
  end.

End Strip.

Definition trimStart (l : list ascii) : list ascii := strip white2 white3 l.

(** The same from the back: the bytes of a code point come reversed. *)
Definition trimEnd (l : list ascii) : list ascii :=
  rev (strip (fun b a => white2 a b) (fun c b a => white3 a b c) (rev l)).

(** [String.prototype.trim] *)
Definition trim (s : string) : string :=
  string_of_list_ascii (trimEnd (trimStart (list_ascii_of_string s))).

(** The three [useState] cells. *)
Record State : Type := mkState {
  text : string;
  problemDescription : string;
  isSubmitting : bool
}.

Inductive Event : Type :=
| PreventDefault
| SetIsSubmitting (b : bool)
| Fetch (req : Server.FetchRequest)
| ConsoleLog (v : JsValue)
| ConsoleError (e : Thrown).

(** [disabled={isSubmitting || !text.trim()}] *)
Definition button_disabled (st : State) : bool :=
  isSubmitting st || String.eqb (trim (text st)) "".

Definition button_label (st : State) : string :=
  if isSubmitting st then "Submitting..." else "Submit".

(** The request of [handleSubmit]; the body is the value handed to
    [JSON.stringify]. *)
Definition submission (st : State) : Server.FetchRequest :=
  {| Server.url := "/api/data";
     Server.method := "POST";
     Server.headers := [("Content-Type", "application/json")];
     Server.body_json := JObj [("message", JStr (text st));
                               ("description", JStr (problemDescription st))] |}.

(** [try { m } finally { f }]: [f] runs once [m] has completed, normally
    or not, and the completion of [m] stands unless [f] throws. *)
Definition finally {E A} (m : Run E A) (f : Run E unit) : Run E A :=
  match settled m with
  | Pending => m
  | _ =>
      mkRun (events m ++ events f) (suspended m || suspended f)
        match settled f with
        | Fulfilled _ => settled m
        | Rejected e => Rejected e
        | Pending => Pending
        end
  end.

Section Component.

Variable host : Server.Host.
(* the fetch of the browser *)
Variable fetch : Server.FetchRequest -> Settled Server.FetchResponse.

Definition handleSubmit (st : State) : Run Event unit :=
  emit PreventDefault ;;
  if String.eqb (trim (text st)) "" || String.eqb (trim (problemDescription st)) "" then
    ret tt
  else
    emit (SetIsSubmitting true) ;;
    finally
      (try_catch
         (emit (Fetch (submission st)) ;;
          response <- await (fetch (submission st)) ;;
          body <- await (Server.payload response) ;;
          result <- lift (Server.JSON_parse host body) ;;
          emit (ConsoleLog result))
         (fun err => emit (ConsoleError err)))
      (emit (SetIsSubmitting false)).

End Component.

(** The value of [isSubmitting] after the state updates of a trace. *)
Definition busy_after (st : State) (t : list Event) : bool :=
  fold_left (fun b ev => match ev with
                         | SetIsSubmitting b' => b'
                         | _ => b
                         end) t (isSubmitting st).

Definition is_post (ev : Event) : bool :=
  match ev with
  | Fetch _ => true
  | _ => false
  end.

(** A character that prints in ASCII: [!] to [~]. *)
Definition visible (c : ascii) : bool :=
  let x := nat_of_ascii c in (33 <=? x)%nat && (x <=? 126)%nat.

End Client.

(** ** More worlds for the examples *)

Module Scenarios.
Import Js Async Server.

(** The extraction call returns the JSON text [null]. *)
Definition extraction_null : World :=
  Reference.world (Some "s3cret")
    (Fulfilled (Reference.completion (JStr "**Two Sum**")))
    (Fulfilled (Reference.completion (JStr "null")))
    (Fulfilled Reference.created).

(** Both completions arrive and there is no card credential. *)
Definition no_credential : World :=
  Reference.world None
    (Fulfilled (Reference.completion (JStr "**Two Sum**")))
    (Fulfilled (Reference.completion (JStr Reference.solution_text)))
    (Fulfilled Reference.created).

Definition unauthorized : FetchResponse :=
  {| status := 401; payload := Fulfilled "bad key" |}.

(** Both completions arrive and the card service refuses the key. *)
Definition card_refused : World :=
  Reference.world (Some "s3cret")
    (Fulfilled (Reference.completion (JStr "**Two Sum**")))
    (Fulfilled (Reference.completion (JStr Reference.solution_text)))
    (Fulfilled unauthorized).

(** A form that is filled in, and the server's answer to it. *)
Definition filled : Client.State :=
  {| Client.text := "two sum solution...";
     Client.problemDescription := "Given an array...";
     Client.isSubmitting := false |}.

Definition acknowledged : FetchResponse :=
  {| status := 200;
     payload := Fulfilled ("{" ++ Reference.quoted "status" ++ ":" ++ Reference.quoted "submitted" ++ "," ++
                           Reference.quoted "message" ++ ":" ++ Reference.quoted "Now processing" ++ "}") |}.

(** The server's answer to a body that it could not read. *)
Definition failed : FetchResponse :=
  {| status := 500;
     payload := Fulfilled ("{" ++ Reference.quoted "error" ++ ":" ++
                           Reference.quoted "Failed to submit request" ++ "}") |}.

(** A completion without the [choices] array. *)
Definition no_choices_field : JsValue :=
  JObj [("id", JStr "chatcmpl-3"); ("object", JStr "chat.completion")].

(** Both completion calls are answered without [choices]. *)
Definition malformed : World :=
  Reference.world (Some "s3cret")
    (Fulfilled no_choices_field) (Fulfilled no_choices_field)
    (Fulfilled Reference.created).

End Scenarios.

(** * Properties *)

Import Js Async Server.

Local Opaque code_prompt problem_prompt card_question LF.

Lemma string_app_assoc (a b c : string) : (a ++ b) ++ c = a ++ (b ++ c).
Proof.
  induction a as [|x a IH]; simpl.
  - reflexivity.
  - now rewrite IH.
Qed.

(** ** The model at work *)

Example base64_vectors :
  Base64.encode "Man" = "TWFu" /\ Base64.encode "Ma" = "TWE=" /\
  Base64.encode "M" = "TQ==" /\ Base64.encode "s3cret:" = "czNjcmV0Og==".
Proof. repeat split; reflexivity. Qed.

Example ToString_array :
  ToString Reference.Number_toString
    (JArr [JNum 1%float; JNull; JArr [JNum 2%float; JNum (-3)%float]; JStr "a"; JObj []]) =
    Return "1,,2,-3,a,[object Object]".
Proof. vm_compute. reflexivity. Qed.

Example ToString_unconvertible :
  ToString Reference.Number_toString (JArr [JStr "a"; JObj [("toString", JNull)]]) =
    Throws cannot_convert.
Proof. vm_compute. reflexivity. Qed.

Example JSON_parse_solution :
  Reference.JSON_parse Reference.solution_text =
    Return (JObj [("solutionExplanation", JStr "Use a hash map.");
                  ("code", JStr "def two_sum(nums, target): pass")]).
Proof. vm_compute. reflexivity. Qed.

Example JSON_parse_nested :
  Reference.JSON_parse
    (" { " ++ Reference.quoted "a" ++ " : [1, -20, true, false , null, [], {}], " ++
     Reference.quoted "b" ++ ":" ++ Reference.quoted "x" ++ "," ++
     Reference.quoted "a" ++ ": 0 } ") =
    Return (JObj [("a", JNum 0%float); ("b", JStr "x")]).
Proof. vm_compute. reflexivity. Qed.

Example JSON_parse_rejects :
  Reference.JSON_parse "" = Throws Reference.syntax_error /\
  Reference.JSON_parse "[1,]" = Throws Reference.syntax_error /\
  Reference.JSON_parse "01" = Throws Reference.syntax_error /\
  Reference.JSON_parse "true x" = Throws Reference.syntax_error.
Proof. repeat split; vm_compute; reflexivity. Qed.

(** The whole run of one submission when everything cooperates. *)
Example cooperative_run :
  post_api_data Reference.host Reference.cooperative Reference.two_sum =
    mkRun [Respond 200 acknowledgment;
           ChatCompletionsCreate (problem_request (problem_prompt ++ "Given an array..."));
           ChatCompletionsCreate (code_request (code_prompt ++ "two sum solution..."));
           Console log [text "Creating Mochi card..."];
           Fetch Reference.two_sum_card;
           Console log [text "✅ Card created in Mochi: c4rd"];
           Console log [text "✅ Processing completed successfully"]]
          false (Fulfilled tt).
Proof. vm_compute. reflexivity. Qed.

(** A body that is [undefined] is answered with [500]. *)
Example undefined_body_run :
  responses (events (post_api_data Reference.host Reference.cooperative JUndefined)) =
    [(500, JObj [("error", JStr "Failed to submit request");
                 ("details",
                  JStr "Cannot destructure property 'message' of 'req.body' as it is undefined.")])].
Proof. vm_compute. reflexivity. Qed.

(** ** Laws of runs *)

Section RunLaws.

Context {E A B : Type}.
Local Open Scope list_scope.

Lemma bind_fulfilled (m : Run E A) (k : A -> Run E B) (a : A) :
  settled m = Fulfilled a ->
  bind m k = mkRun (events m ++ events (k a))
                   (suspended m || suspended (k a)) (settled (k a)).
Proof. intros H. unfold bind. now rewrite H. Qed.

Lemma bind_rejected (m : Run E A) (k : A -> Run E B) (e : Thrown) :
  settled m = Rejected e ->
  bind m k = mkRun (events m) (suspended m) (Rejected e).
Proof. intros H. unfold bind. now rewrite H. Qed.

Lemma bind_pending (m : Run E A) (k : A -> Run E B) :
  settled m = Pending ->
  bind m k = mkRun (events m) (suspended m) Pending.
Proof. intros H. unfold bind. now rewrite H. Qed.

(** Whatever follows, the events of the first part come first. *)
Lemma events_bind_prefix (m : Run E A) (k : A -> Run E B) :
  exists rest, events (bind m k) = events m ++ rest.
Proof.
  unfold bind. destruct (settled m) as [a| |]; simpl.
  - now exists (events (k a)).
  - exists []. now rewrite app_nil_r.
  - exists []. now rewrite app_nil_r.
Qed.

Lemma try_catch_rejected (m : Run E A) (h : Thrown -> Run E A) (e : Thrown) :
  settled m = Rejected e ->
  try_catch m h = mkRun (events m ++ events (h e))
                        (suspended m || suspended (h e)) (settled (h e)).
Proof. intros H. unfold try_catch. now rewrite H. Qed.

Lemma events_try_catch_prefix (m : Run E A) (h : Thrown -> Run E A) :
  exists rest, events (try_catch m h) = events m ++ rest.
Proof.
  unfold try_catch. destruct (settled m) as [a|e|]; simpl.
  - exists []. now rewrite app_nil_r.
  - now exists (events (h e)).
  - exists []. now rewrite app_nil_r.
Qed.

(** A property of all events is kept by sequencing. *)
Lemma Forall_events_bind (P : E -> Prop) (m : Run E A) (k : A -> Run E B) :
  Forall P (events m) -> (forall a, Forall P (events (k a))) ->
  Forall P (events (bind m k)).
Proof.
  intros Hm Hk. unfold bind. destruct (settled m) as [a| |]; simpl; trivial.
  apply Forall_app. split; [assumption | apply Hk].
Qed.

Lemma Forall_events_try_catch (P : E -> Prop) (m : Run E A) (h : Thrown -> Run E A) :
  Forall P (events m) -> (forall e, Forall P (events (h e))) ->
  Forall P (events (try_catch m h)).
Proof.
  intros Hm Hh. unfold try_catch. destruct (settled m) as [a|e|]; simpl; trivial.
  apply Forall_app. split; [assumption | apply Hh].
Qed.

Lemma Forall_events_Promise_all (P : E -> Prop) (b : bool) (p : Run E A) (q : Run E B) :
  Forall P (events p) -> Forall P (events q) ->
  Forall P (events (Promise_all b p q)).
Proof. intros Hp Hq. simpl. apply Forall_app. now split. Qed.

Lemma Forall_events_lift (P : E -> Prop) (c : Completion A) :
  Forall P (events (lift (E := E) c)).
Proof. destruct c; constructor. Qed.

(** The join is fulfilled only when both promises are. *)
Lemma Promise_all_fulfilled (b : bool) (p : Run E A) (q : Run E B) (x : A) (y : B) :
  settled p = Fulfilled x -> settled q = Fulfilled y ->
  settled (Promise_all b p q) = Fulfilled (x, y).
Proof. intros Hp Hq. simpl. now rewrite Hp, Hq. Qed.

(** The join is rejected as soon as one of the two promises is, whatever
    the state of the other, with the reason of one of the two. *)
Lemma Promise_all_rejected (b : bool) (p : Run E A) (q : Run E B) :
  (exists e, settled p = Rejected e) \/ (exists e, settled q = Rejected e) ->
  exists e, settled (Promise_all b p q) = Rejected e /\
            (settled p = Rejected e \/ settled q = Rejected e).
Proof.
  simpl. intros [[e H]|[e H]]; rewrite H.
  - destruct (settled q) as [y|e'|]; try (exists e; now auto).
    destruct (negb (suspended p)); [exists e; now auto|].
    destruct (negb (suspended q)); [exists e'; now auto|].
    destruct b; [exists e' | exists e]; now auto.
  - destruct (settled p) as [x|e'|]; try (exists e; now auto).
    destruct (negb (suspended p)); [exists e'; now auto|].
    destruct (negb (suspended q)); [exists e; now auto|].
    destruct b; [exists e | exists e']; now auto.
Qed.

End RunLaws.

Section Card.

Variable host : Host.
Variable w : World.

Abbreviation str := (ToString (Number_toString host)).

(** The content of a card, whenever its three parts convert to strings. *)
Lemma cardContent_converted (p e c : JsValue) (ps es cs : string) :
  str p = Return ps -> str e = Return es -> str c = Return cs ->
  cardContent host p e c =
    Return (card_question ++ ps ++ LF ++ "---" ++ LF ++ es ++ LF ++
            "```python" ++ LF ++ cs ++ LF ++ "```").
Proof.
  intros Hp He Hc. unfold cardContent, plus.
  rewrite Hp. simpl. rewrite He. simpl. rewrite Hc. simpl.
  f_equal. now rewrite !string_app_assoc.
Qed.

(** Conversely, a card has content only if its three parts convert. *)
Lemma cardContent_inv (p e c : JsValue) (s : string) :
  cardContent host p e c = Return s ->
  exists ps es cs,
    str p = Return ps /\ str e = Return es /\ str c = Return cs /\
    s = card_question ++ ps ++ LF ++ "---" ++ LF ++ es ++ LF ++
        "```python" ++ LF ++ cs ++ LF ++ "```".
Proof.
  intros H.
  destruct (str p) as [ps|] eqn:Hp; [|unfold cardContent, plus in H; rewrite Hp in H; discriminate].
  destruct (str e) as [es|] eqn:He; [|unfold cardContent, plus in H; rewrite Hp in H; simpl in H; rewrite He in H; discriminate].
  destruct (str c) as [cs|] eqn:Hc; [|unfold cardContent, plus in H; rewrite Hp in H; simpl in H; rewrite He in H; simpl in H; rewrite Hc in H; discriminate].
  rewrite (cardContent_converted p e c ps es cs Hp He Hc) in H.
  exists ps, es, cs. repeat split; congruence.
Qed.

(** The events of one call of [createMochiCard]. *)
Lemma createMochiCard_events (p e c : JsValue) :
  events (createMochiCard host w p e c) =
    match MOCHI_API_KEY w with
    | None | Some EmptyString =>
        [Console warn [text "Skipping Mochi card creation: MOCHI_API_KEY is missing."]]
    | Some key =>
        match cardContent host p e c with
        | Return content => [Fetch (card_request key content)]
        | Throws _ => []
        end
    end.
Proof.
  unfold createMochiCard.
  destruct (MOCHI_API_KEY w) as [[|a key]|]; try reflexivity.
  destruct (cardContent host p e c) as [content|err]; [|reflexivity].
  cbn [lift bind ret emit await settled events suspended app].
  destruct (fetch w _) as [response| |]; try reflexivity.
  cbn [lift bind ret emit await settled events suspended app].
  destruct (negb (ok response)).
  - destruct (payload response); reflexivity.
  - destruct (payload response) as [body| |]; try reflexivity.
    cbn [lift bind ret emit await settled events suspended app].
    destruct (JSON_parse host body); reflexivity.
Qed.

End Card.

(** ** The two completion calls *)

Section Completions.

Variable host : Host.
Variable w : World.

Abbreviation str := (ToString (Number_toString host)).

Ltac step :=
  cbn [bind lift ret throw emit await settled events suspended cbind app orb].

(** A value that is falsy is a primitive, and converts to a string. *)
Lemma falsy_converts (v : JsValue) :
  truthy v = false -> exists s, str v = Return s.
Proof.
  destruct v as [| |[|]|n|s|items|fields]; simpl; intros H;
    try discriminate; eauto.
Qed.

Lemma generateProblemDescription_events (description : JsValue) :
  events (generateProblemDescription host w description) =
    match str description with
    | Return s => [ChatCompletionsCreate (problem_request (problem_prompt ++ s))]
    | Throws _ => []
    end.
Proof.
  unfold generateProblemDescription, plus.
  destruct (str description) as [s|e]; step; [|reflexivity].
  destruct (chat_completions_create w _) as [response| |]; step; try reflexivity.
  destruct (first_choice_content response); reflexivity.
Qed.

Lemma generateProblemDescription_settled (description : JsValue) (s : string) :
  str description = Return s ->
  settled (generateProblemDescription host w description) =
    match chat_completions_create w (problem_request (problem_prompt ++ s)) with
    | Fulfilled response =>
        match first_choice_content response with
        | Return content => Fulfilled content
        | Throws e => Rejected e
        end
    | Rejected e => Rejected e
    | Pending => Pending
    end.
Proof.
  intros H. unfold generateProblemDescription, plus. rewrite H. step.
  destruct (chat_completions_create w _) as [response| |]; step; try reflexivity.
  destruct (first_choice_content response); reflexivity.
Qed.

Lemma generateCodeResponse_events (message : JsValue) :
  events (generateCodeResponse host w message) =
    match str message with
    | Return s => [ChatCompletionsCreate (code_request (code_prompt ++ s))]
    | Throws _ => []
    end.
Proof.
  unfold generateCodeResponse, plus.
  destruct (str message) as [s|e]; step; [|reflexivity].
  destruct (chat_completions_create w _) as [response| |]; step; try reflexivity.
  destruct (first_choice_content response) as [content|]; step; [|reflexivity].
  destruct (negb (truthy content)); step; [reflexivity|].
  destruct (str content) as [source|]; step; [|reflexivity].
  destruct (JSON_parse host source); reflexivity.
Qed.

Lemma generateCodeResponse_settled (message : JsValue) (s : string) :
  str message = Return s ->
  settled (generateCodeResponse host w message) =
    match chat_completions_create w (code_request (code_prompt ++ s)) with
    | Fulfilled response =>
        match first_choice_content response with
        | Return content =>
            if truthy content then
              match str content with
              | Return source =>
                  match JSON_parse host source with
                  | Return v => Fulfilled v
                  | Throws e => Rejected e
                  end
              | Throws e => Rejected e
              end
            else Rejected (ErrorObject PlainError "No content returned")
        | Throws e => Rejected e
        end
    | Rejected e => Rejected e
    | Pending => Pending
    end.
Proof.
  intros H. unfold generateCodeResponse, plus. rewrite H. step.
  destruct (chat_completions_create w _) as [response| |]; step; try reflexivity.
  destruct (first_choice_content response) as [content|]; step; [|reflexivity].
  destruct (truthy content); step; [|reflexivity].
  destruct (str content) as [source|]; step; [|reflexivity].
  destruct (JSON_parse host source); reflexivity.
Qed.

End Completions.

(** ** The background task and the handler *)

Section Pipeline.

Variable host : Host.
Variable w : World.

Abbreviation str := (ToString (Number_toString host)).
Abbreviation reformat := (generateProblemDescription host w).
Abbreviation extract := (generateCodeResponse host w).

Ltac step :=
  cbn [bind lift ret throw emit await settled events suspended cbind app orb].

(** When the join is rejected, the task logs the reason and stops. *)
Lemma background_aborted (message description : JsValue) (e : Thrown) :
  settled (Promise_all (extraction_completes_first w)
             (reformat description) (extract message)) = Rejected e ->
  events (background host w message description) =
    (events (reformat description) ++ events (extract message) ++
     [Console error [text "Error in background processing:"; thrown e];
      Console error [text "Error details:"; text (errorMessage e)]])%list.
Proof.
  intros H. unfold background.
  rewrite (bind_rejected _ _ e H).
  unfold try_catch. cbn. now rewrite <- app_assoc.
Qed.

(** When both calls are fulfilled and the extraction is not [null], the
    task goes on to [createMochiCard] with the three joined values. *)
Lemma background_joined (message description problem solution explanation code : JsValue) :
  settled (reformat description) = Fulfilled problem ->
  settled (extract message) = Fulfilled solution ->
  GetField solution "solutionExplanation" = Return explanation ->
  GetField solution "code" = Return code ->
  exists rest,
    events (background host w message description) =
      (events (reformat description) ++ events (extract message) ++
       Console log [text "Creating Mochi card..."] ::
       events (createMochiCard host w problem explanation code) ++ rest)%list.
Proof.
  intros Hp Hs He Hc. unfold background.
  destruct (events_try_catch_prefix
              ('(problemDescription, solutionExplanationAndCode) <-
                 Promise_all (extraction_completes_first w)
                   (reformat description) (extract message) ;;
               solutionExplanation <- lift (GetField solutionExplanationAndCode "solutionExplanation") ;;
               code <- lift (GetField solutionExplanationAndCode "code") ;;
               emit (Console log [text "Creating Mochi card..."]) ;;
               mochiCard <- createMochiCard host w problemDescription solutionExplanation code ;;
               (if truthy mochiCard then
                  id <- lift (cbind (GetField mochiCard "id") str) ;;
                  emit (Console log [text ("✅ Card created in Mochi: " ++ id)])
                else ret tt) ;;
               emit (Console log [text "✅ Processing completed successfully"]))%run
              (fun e =>
                 (emit (Console error [text "Error in background processing:"; thrown e]) ;;
                  emit (Console error [text "Error details:"; text (errorMessage e)]))%run))
    as [r1 ->].
  rewrite (bind_fulfilled _ _ (problem, solution)
             (Promise_all_fulfilled _ _ _ _ _ Hp Hs)).
  cbn [events]. rewrite He. step. rewrite Hc. step.
  destruct (events_bind_prefix (createMochiCard host w problem explanation code)
              (fun mochiCard =>
                 ((if truthy mochiCard then
                     id <- lift (cbind (GetField mochiCard "id") str) ;;
                     emit (Console log [text ("✅ Card created in Mochi: " ++ id)])
                   else ret tt) ;;
                  emit (Console log [text "✅ Processing completed successfully"]))%run))
    as [r2 ->].
  exists (r2 ++ r1)%list.
  cbn [Promise_all events].
  rewrite <- !app_assoc. cbn [app]. now rewrite <- !app_assoc.
Qed.

(** Every event of the task starts with the two calls of the join. *)
Lemma background_starts_with_join (message description : JsValue) :
  exists rest,
    events (background host w message description) =
      (events (reformat description) ++ events (extract message) ++ rest)%list.
Proof.
  unfold background.
  match goal with
  | |- context [try_catch ?m ?h] =>
      destruct (events_try_catch_prefix m h) as [r1 ->]
  end.
  match goal with
  | |- context [bind ?m ?k] =>
      destruct (events_bind_prefix m k) as [r2 ->]
  end.
  exists (r2 ++ r1)%list. cbn [Promise_all events]. now rewrite <- !app_assoc.
Qed.

Lemma responses_quiet (t : list Event) : Forall quiet t -> responses t = [].
Proof.
  induction 1 as [|ev t Hev _ IH]; [reflexivity|].
  unfold responses in *. simpl. rewrite IH.
  destruct ev; try reflexivity. discriminate.
Qed.

Ltac quiet_run :=
  repeat first
    [ apply Forall_events_bind; [|intros]
    | apply Forall_events_try_catch; [|intros]
    | apply Forall_events_Promise_all
    | apply Forall_events_lift
    | match goal with
      | |- Forall _ (events (let '(_, _) := ?p in _)) => destruct p
      | |- Forall _ (events (if ?c then _ else _)) => destruct c
      end
    | repeat constructor ].

(** The background task never writes to the HTTP response. *)
Lemma background_quiet (message description : JsValue) :
  Forall quiet (events (background host w message description)).
Proof.
  unfold background, generateProblemDescription, generateCodeResponse.
  quiet_run.
  rewrite createMochiCard_events.
  destruct (MOCHI_API_KEY w) as [[|? ?]|]; repeat constructor.
  destruct (cardContent host _ _ _); repeat constructor.
Qed.

(** The handler on a body that is an object. *)
Lemma post_api_data_object (fields : list (string * JsValue)) :
  post_api_data host w (JObj fields) =
    if negb (truthy (submitted fields "message")) ||
       negb (truthy (submitted fields "description"))
    then mkRun [Respond 400 validation_error] false (Fulfilled tt)
    else mkRun (Respond 200 acknowledgment ::
                events (background host w (submitted fields "message")
                                          (submitted fields "description")))
               false (Fulfilled tt).
Proof.
  unfold post_api_data, destructure, submitted.
  cbn [is_nullish GetField GetFieldOpt cbind lift].
  rewrite (bind_fulfilled (ret _) _ _ eq_refl).
  cbn [ret events suspended settled app orb].
  destruct (negb _ || negb _); reflexivity.
Qed.

End Pipeline.

Local Transparent card_question.

(** C4.  Without the card credential ([MOCHI_API_KEY] unset or empty),
    [createMochiCard] resolves to [null] whatever its three arguments are,
    and its only effect is the console warning: no [fetch] is made and
    nothing is thrown. *)
Theorem createMochiCard_without_credential
    (host : Host) (w : World) (p e c : JsValue) :
  MOCHI_API_KEY w = None \/ MOCHI_API_KEY w = Some "" ->
  createMochiCard host w p e c =
    mkRun [Console warn [text "Skipping Mochi card creation: MOCHI_API_KEY is missing."]]
          false (Fulfilled JNull).
Proof.
  intros [H|H]; unfold createMochiCard; rewrite H; reflexivity.
Qed.

Lemma createMochiCard_without_credential_witness :
  createMochiCard Reference.host Reference.silent
      (JStr "**Two Sum**") (JStr "Use a hash map.") (JStr "pass") =
    mkRun [Console warn [text "Skipping Mochi card creation: MOCHI_API_KEY is missing."]]
          false (Fulfilled JNull).
Proof.
  apply (createMochiCard_without_credential Reference.host Reference.silent).
  left. reflexivity.
Defined.

(** C5.  The content of a card is a function of the three strings alone:
    for all strings [problem], [explanation] and [code], on every host, it
    is the question line, the problem, the separator line [---], the
    explanation, and the code between the fence [```python] and the
    closing fence, joined by line feeds. *)
Theorem cardContent_template (host : Host) (problem explanation code : string) :
  cardContent host (JStr problem) (JStr explanation) (JStr code) =
    Return ("What is the key techinque to solve this problem?" ++ LF ++
            problem ++ LF ++
            "---" ++ LF ++
            explanation ++ LF ++
            "```python" ++ LF ++
            code ++ LF ++
            "```").
Proof.
  rewrite (cardContent_converted host _ _ _ problem explanation code) by reflexivity.
  unfold card_question. now rewrite !string_app_assoc.
Qed.

(** C9.  Every [fetch] that [createMochiCard] makes is the same request up
    to the three inputs: a POST to the card endpoint whose body has the
    deck identifier [QKtBzxLx], the archived flag [false], and a content
    that begins with the question line and ends with the code between
    [```python] and the closing fence, whatever language the code is in. *)
Theorem createMochiCard_request_shape
    (host : Host) (w : World) (p e c : JsValue) (req : FetchRequest) :
  In (Fetch req) (events (createMochiCard host w p e c)) ->
  exists ps es cs : string,
    ToString (Number_toString host) p = Return ps /\
    ToString (Number_toString host) e = Return es /\
    ToString (Number_toString host) c = Return cs /\
    url req = "https://app.mochi.cards/api/cards/" /\
    method req = "POST" /\
    body_json req =
      JObj [("content",
             JStr ("What is the key techinque to solve this problem?" ++ LF ++
                   ps ++ LF ++ "---" ++ LF ++ es ++ LF ++
                   "```python" ++ LF ++ cs ++ LF ++ "```"));
            ("deck-id", JStr "QKtBzxLx");
            ("archived?", JBool false)].
Proof.
  rewrite createMochiCard_events.
  destruct (MOCHI_API_KEY w) as [[|a key]|].
  - intros [H|[]]; discriminate.
  - destruct (cardContent host p e c) as [content|err] eqn:Hcard.
    + intros [H|[]]. injection H as <-.
      destruct (cardContent_inv host p e c content Hcard) as (ps & es & cs & Hp & He & Hc & ->).
      exists ps, es, cs. repeat split; assumption.
    + intros [].
  - intros [H|[]]; discriminate.
Qed.

Lemma createMochiCard_request_shape_witness :
  In (Fetch Reference.two_sum_card)
     (events (createMochiCard Reference.host Reference.cooperative
                (JStr "**Two Sum**") (JStr "Use a hash map.")
                (JStr "def two_sum(nums, target): pass"))) /\
  exists ps es cs : string,
    ToString Reference.Number_toString (JStr "**Two Sum**") = Return ps /\
    ToString Reference.Number_toString (JStr "Use a hash map.") = Return es /\
    ToString Reference.Number_toString (JStr "def two_sum(nums, target): pass") = Return cs /\
    url Reference.two_sum_card = "https://app.mochi.cards/api/cards/" /\
    method Reference.two_sum_card = "POST" /\
    body_json Reference.two_sum_card =
      JObj [("content",
             JStr ("What is the key techinque to solve this problem?" ++ LF ++
                   ps ++ LF ++ "---" ++ LF ++ es ++ LF ++
                   "```python" ++ LF ++ cs ++ LF ++ "```"));
            ("deck-id", JStr "QKtBzxLx");
            ("archived?", JBool false)].
Proof.
  assert (H : In (Fetch Reference.two_sum_card)
     (events (createMochiCard Reference.host Reference.cooperative
                (JStr "**Two Sum**") (JStr "Use a hash map.")
                (JStr "def two_sum(nums, target): pass")))).
  { vm_compute. left. reflexivity. }
  split; [exact H|].
  exact (createMochiCard_request_shape Reference.host Reference.cooperative
           (JStr "**Two Sum**") (JStr "Use a hash map.")
           (JStr "def two_sum(nums, target): pass") Reference.two_sum_card H).
Defined.

(** C6.  When the body of the request has no [message] or no
    [description], the handler answers [400] with
    [{error: "Message is required"}] and does nothing else: the
    background task is not started. *)
Theorem missing_field_is_rejected
    (host : Host) (w : World) (fields : list (string * JsValue)) :
  lookup "message" fields = None \/ lookup "description" fields = None ->
  post_api_data host w (JObj fields) =
    mkRun [Respond 400 (JObj [("error", JStr "Message is required")])]
          false (Fulfilled tt).
Proof.
  intros H. rewrite post_api_data_object. unfold submitted, GetFieldOpt.
  destruct H as [H|H]; rewrite H; simpl.
  - reflexivity.
  - now rewrite orb_true_r.
Qed.

Lemma missing_field_is_rejected_witness :
  (lookup "message" [("message", JStr "two sum solution...")] = None \/
   lookup "description" [("message", JStr "two sum solution...")] = None) /\
  post_api_data Reference.host Reference.cooperative
      (JObj [("message", JStr "two sum solution...")]) =
    mkRun [Respond 400 (JObj [("error", JStr "Message is required")])]
          false (Fulfilled tt).
Proof.
  assert (H : lookup "message" [("message", JStr "two sum solution...")] = None \/
              lookup "description" [("message", JStr "two sum solution...")] = None).
  { right. reflexivity. }
  split; [exact H|].
  exact (missing_field_is_rejected Reference.host Reference.cooperative _ H).
Defined.

(** C1, as the code has it.  When [message] or [description] is empty (the
    empty string, or another falsy value: a missing field, [null], [false],
    zero), the handler answers with the validation error and makes no
    outbound call.  The test is [!message || !description], without
    trimming. *)
Theorem empty_field_is_rejected
    (host : Host) (w : World) (fields : list (string * JsValue)) :
  truthy (submitted fields "message") = false \/
  truthy (submitted fields "description") = false ->
  post_api_data host w (JObj fields) =
    mkRun [Respond 400 (JObj [("error", JStr "Message is required")])]
          false (Fulfilled tt)
  /\ outbound (events (post_api_data host w (JObj fields))) = [].
Proof.
  intros H.
  assert (E : post_api_data host w (JObj fields) =
              mkRun [Respond 400 validation_error] false (Fulfilled tt)).
  { rewrite post_api_data_object.
    destruct H as [H|H]; rewrite H; simpl; [|rewrite orb_true_r]; reflexivity. }
  rewrite E. split; reflexivity.
Qed.

Lemma empty_field_is_rejected_witness :
  (truthy (submitted [("message", JStr ""); ("description", JStr "x")] "message") = false \/
   truthy (submitted [("message", JStr ""); ("description", JStr "x")] "description") = false) /\
  post_api_data Reference.host Reference.cooperative
      (JObj [("message", JStr ""); ("description", JStr "x")]) =
    mkRun [Respond 400 (JObj [("error", JStr "Message is required")])]
          false (Fulfilled tt)
  /\ outbound (events (post_api_data Reference.host Reference.cooperative
                         (JObj [("message", JStr ""); ("description", JStr "x")]))) = [].
Proof.
  assert (H : truthy (submitted [("message", JStr ""); ("description", JStr "x")] "message") = false \/
              truthy (submitted [("message", JStr ""); ("description", JStr "x")] "description") = false).
  { left. reflexivity. }
  split; [exact H|].
  exact (empty_field_is_rejected Reference.host Reference.cooperative _ H).
Defined.

(** C1 as stated fails: a [message] of three spaces is whitespace only, yet
    the handler acknowledges the submission and starts both completion
    calls. *)
Lemma whitespace_only_message_is_accepted :
  Reference.whitespace_only "   " = true /\
  events (post_api_data Reference.host Reference.silent
            (JObj [("message", JStr "   "); ("description", JStr "x")])) =
    [Respond 200 (JObj [("status", JStr "submitted"); ("message", JStr "Now processing")]);
     ChatCompletionsCreate (problem_request (problem_prompt ++ "x"));
     ChatCompletionsCreate (code_request (code_prompt ++ "   "))].
Proof. split; vm_compute; reflexivity. Qed.

(** C7.  When both fields are present and non-empty, the handler
    completes, its first event is the response [200] with
    [{status: "submitted", message: "Now processing"}], and that is its
    only response, in every world: whatever the completion service and
    the card service do. *)
Theorem valid_submission_is_acknowledged
    (host : Host) (w : World) (fields : list (string * JsValue)) :
  truthy (submitted fields "message") = true ->
  truthy (submitted fields "description") = true ->
  settled (post_api_data host w (JObj fields)) = Fulfilled tt /\
  responses (events (post_api_data host w (JObj fields))) =
    [(200, JObj [("status", JStr "submitted"); ("message", JStr "Now processing")])] /\
  exists rest,
    events (post_api_data host w (JObj fields)) =
      Respond 200 (JObj [("status", JStr "submitted"); ("message", JStr "Now processing")])
        :: rest.
Proof.
  intros Hm Hd. rewrite post_api_data_object, Hm, Hd. simpl.
  split; [reflexivity|]. split.
  - unfold responses. simpl. f_equal.
    apply responses_quiet, background_quiet.
  - eexists. reflexivity.
Qed.

Lemma valid_submission_is_acknowledged_witness :
  truthy (submitted [("message", JStr "two sum solution...");
                     ("description", JStr "Given an array...")] "message") = true /\
  truthy (submitted [("message", JStr "two sum solution...");
                     ("description", JStr "Given an array...")] "description") = true /\
  settled (post_api_data Reference.host Reference.extraction_down Reference.two_sum)
    = Fulfilled tt /\
  responses (events (post_api_data Reference.host Reference.extraction_down Reference.two_sum)) =
    [(200, JObj [("status", JStr "submitted"); ("message", JStr "Now processing")])] /\
  exists rest,
    events (post_api_data Reference.host Reference.extraction_down Reference.two_sum) =
      Respond 200 (JObj [("status", JStr "submitted"); ("message", JStr "Now processing")])
        :: rest.
Proof.
  split; [reflexivity|]. split; [reflexivity|].
  exact (valid_submission_is_acknowledged Reference.host Reference.extraction_down
           [("message", JStr "two sum solution...");
            ("description", JStr "Given an array...")] eq_refl eq_refl).
Defined.

(** C10.  For a valid submission the acknowledgment is the first event of
    the handler and every completion call of the trace lies after it; and
    when the two fields convert to strings (as every string does), the two
    completion calls are the very next events: the reformatting call, then
    the extraction call. *)
Theorem acknowledgment_precedes_upstream_calls
    (host : Host) (w : World) (fields : list (string * JsValue)) :
  truthy (submitted fields "message") = true ->
  truthy (submitted fields "description") = true ->
  exists rest,
    events (post_api_data host w (JObj fields)) =
      Respond 200 acknowledgment :: rest
    /\ (forall req, In (ChatCompletionsCreate req)
                       (events (post_api_data host w (JObj fields))) ->
                    In (ChatCompletionsCreate req) rest)
    /\ forall sm sd : string,
         ToString (Number_toString host) (submitted fields "message") = Return sm ->
         ToString (Number_toString host) (submitted fields "description") = Return sd ->
         exists rest',
           rest = ChatCompletionsCreate (problem_request (problem_prompt ++ sd))
                  :: ChatCompletionsCreate (code_request (code_prompt ++ sm))
                  :: rest'.
Proof.
  intros Hm Hd. rewrite post_api_data_object, Hm, Hd. simpl.
  eexists. split; [reflexivity|]. split.
  { intros req [H|H]; [discriminate | exact H]. }
  intros sm sd Hsm Hsd.
  destruct (background_starts_with_join host w (submitted fields "message")
              (submitted fields "description")) as [rest' ->].
  rewrite generateProblemDescription_events, generateCodeResponse_events, Hsm, Hsd.
  now exists rest'.
Qed.

Lemma acknowledgment_precedes_upstream_calls_witness :
  truthy (submitted [("message", JStr "two sum solution...");
                     ("description", JStr "Given an array...")] "message") = true /\
  truthy (submitted [("message", JStr "two sum solution...");
                     ("description", JStr "Given an array...")] "description") = true /\
  exists rest,
    events (post_api_data Reference.host Reference.cooperative Reference.two_sum) =
      Respond 200 acknowledgment :: rest
    /\ (forall req, In (ChatCompletionsCreate req)
                       (events (post_api_data Reference.host Reference.cooperative
                                  Reference.two_sum)) ->
                    In (ChatCompletionsCreate req) rest)
    /\ forall sm sd : string,
         ToString Reference.Number_toString (JStr "two sum solution...") = Return sm ->
         ToString Reference.Number_toString (JStr "Given an array...") = Return sd ->
         exists rest',
           rest = ChatCompletionsCreate (problem_request (problem_prompt ++ sd))
                  :: ChatCompletionsCreate (code_request (code_prompt ++ sm))
                  :: rest'.
Proof.
  split; [reflexivity|]. split; [reflexivity|].
  exact (acknowledgment_precedes_upstream_calls Reference.host Reference.cooperative
           [("message", JStr "two sum solution...");
            ("description", JStr "Given an array...")] eq_refl eq_refl).
Defined.

(** C2, as the code has it.  Once the completion service has answered the
    extraction call, [generateCodeResponse] is rejected with
    [Error("No content returned")] when the answer has no content
    (missing, [null] or empty), is rejected with what [JSON.parse] throws
    when the content is not JSON, and otherwise is fulfilled with the
    parsed value as it is: the two fields are required of the service
    through the response format, and are not checked on return. *)
Theorem generateCodeResponse_outcome
    (host : Host) (w : World) (message : JsValue) (prompt : string)
    (response content : JsValue) :
  ToString (Number_toString host) message = Return prompt ->
  chat_completions_create w (code_request (code_prompt ++ prompt)) = Fulfilled response ->
  first_choice_content response = Return content ->
  (truthy content = false ->
     settled (generateCodeResponse host w message) =
       Rejected (ErrorObject PlainError "No content returned")) /\
  (forall source e,
     truthy content = true ->
     ToString (Number_toString host) content = Return source ->
     JSON_parse host source = Throws e ->
     settled (generateCodeResponse host w message) = Rejected e) /\
  (forall source v,
     truthy content = true ->
     ToString (Number_toString host) content = Return source ->
     JSON_parse host source = Return v ->
     settled (generateCodeResponse host w message) = Fulfilled v).
Proof.
  intros Hm Hchat Hcontent.
  rewrite (generateCodeResponse_settled host w message prompt Hm), Hchat, Hcontent.
  repeat split.
  - intros ->. reflexivity.
  - intros source e -> -> ->. reflexivity.
  - intros source v -> -> ->. reflexivity.
Qed.

Lemma generateCodeResponse_outcome_witness :
  ToString Reference.Number_toString (JStr "two sum solution...") =
    Return "two sum solution..." /\
  chat_completions_create Reference.cooperative
      (code_request (code_prompt ++ "two sum solution...")) =
    Fulfilled (Reference.completion (JStr Reference.solution_text)) /\
  first_choice_content (Reference.completion (JStr Reference.solution_text)) =
    Return (JStr Reference.solution_text) /\
  settled (generateCodeResponse Reference.host Reference.cooperative
             (JStr "two sum solution...")) =
    Fulfilled (JObj [("solutionExplanation", JStr "Use a hash map.");
                     ("code", JStr "def two_sum(nums, target): pass")]).
Proof.
  split; [reflexivity|]. split; [reflexivity|]. split; [reflexivity|].
  refine (proj2 (proj2 (generateCodeResponse_outcome Reference.host Reference.cooperative
                          (JStr "two sum solution...") "two sum solution..."
                          (Reference.completion (JStr Reference.solution_text))
                          (JStr Reference.solution_text) eq_refl eq_refl eq_refl))
                Reference.solution_text _ eq_refl eq_refl _).
  vm_compute. reflexivity.
Defined.

(** C2 as stated fails: the content [{"code":"x"}] is JSON but has no
    [solutionExplanation], and the call is fulfilled, with an object
    whose [solutionExplanation] is [undefined]. *)
Lemma generateCodeResponse_accepts_missing_field :
  chat_completions_create Reference.extraction_partial
      (code_request (code_prompt ++ "m")) =
    Fulfilled (Reference.completion
                 (JStr ("{" ++ Reference.quoted "code" ++ ":" ++ Reference.quoted "x" ++ "}"))) /\
  settled (generateCodeResponse Reference.host Reference.extraction_partial (JStr "m")) =
    Fulfilled (JObj [("code", JStr "x")]) /\
  GetField (JObj [("code", JStr "x")]) "solutionExplanation" = Return JUndefined.
Proof. repeat split; vm_compute; reflexivity. Qed.

(** C3.  When the extraction call is rejected (or the reformatting call
    is), whatever the other one does, the background task performs the two
    calls of the join, logs the rejection and its message, and nothing
    else: in particular no [fetch], so no card is created. *)
Theorem join_is_all_or_nothing
    (host : Host) (w : World) (message description : JsValue) :
  (exists e, settled (generateCodeResponse host w message) = Rejected e) \/
  (exists e, settled (generateProblemDescription host w description) = Rejected e) ->
  exists e,
    (settled (generateCodeResponse host w message) = Rejected e \/
     settled (generateProblemDescription host w description) = Rejected e) /\
    events (background host w message description) =
      (events (generateProblemDescription host w description) ++
       events (generateCodeResponse host w message) ++
       [Console error [text "Error in background processing:"; thrown e];
        Console error [text "Error details:"; text (errorMessage e)]])%list /\
    forall req, ~ In (Fetch req) (events (background host w message description)).
Proof.
  intros H.
  destruct (Promise_all_rejected (extraction_completes_first w)
              (generateProblemDescription host w description)
              (generateCodeResponse host w message)) as (e & He & Hor).
  { tauto. }
  exists e. split; [tauto|].
  rewrite (background_aborted host w message description e He).
  split; [reflexivity|].
  intros req Hin.
  rewrite generateProblemDescription_events, generateCodeResponse_events in Hin.
  destruct (ToString _ description), (ToString _ message); simpl in Hin;
    repeat (destruct Hin as [Hin|Hin]; [discriminate|]); exact Hin.
Qed.

Lemma join_is_all_or_nothing_witness :
  settled (generateProblemDescription Reference.host Reference.extraction_down
             (JStr "Given an array...")) = Fulfilled (JStr "**Two Sum**") /\
  settled (generateCodeResponse Reference.host Reference.extraction_down
             (JStr "two sum solution...")) =
    Rejected (ErrorObject PlainError "429 Too Many Requests") /\
  exists e,
    (settled (generateCodeResponse Reference.host Reference.extraction_down
                (JStr "two sum solution...")) = Rejected e \/
     settled (generateProblemDescription Reference.host Reference.extraction_down
                (JStr "Given an array...")) = Rejected e) /\
    events (background Reference.host Reference.extraction_down
              (JStr "two sum solution...") (JStr "Given an array...")) =
      (events (generateProblemDescription Reference.host Reference.extraction_down
                 (JStr "Given an array...")) ++
       events (generateCodeResponse Reference.host Reference.extraction_down
                 (JStr "two sum solution...")) ++
       [Console error [text "Error in background processing:"; thrown e];
        Console error [text "Error details:"; text (errorMessage e)]])%list /\
    forall req, ~ In (Fetch req)
                     (events (background Reference.host Reference.extraction_down
                                (JStr "two sum solution...") (JStr "Given an array..."))).
Proof.
  split; [reflexivity|]. split; [reflexivity|].
  apply (join_is_all_or_nothing Reference.host Reference.extraction_down
           (JStr "two sum solution...") (JStr "Given an array...")).
  left. exists (ErrorObject PlainError "429 Too Many Requests"). reflexivity.
Defined.

(** C8.  When the completion service answers the reformatting call without
    content (no choice, no message, a [null] or empty content),
    [generateProblemDescription] is fulfilled with that empty value; and
    the task carries on with it: once the extraction is fulfilled and the
    credential is present, [createMochiCard] posts a card whose problem
    part is the empty value converted to a string (["undefined"] for
    [undefined]).  Nothing validates the reformatted problem. *)
Theorem empty_problem_is_tolerated
    (host : Host) (w : World) (description : JsValue) (prompt : string)
    (response problem : JsValue) :
  ToString (Number_toString host) description = Return prompt ->
  chat_completions_create w (problem_request (problem_prompt ++ prompt)) = Fulfilled response ->
  first_choice_content response = Return problem ->
  truthy problem = false ->
  settled (generateProblemDescription host w description) = Fulfilled problem /\
  forall (message solution explanation code : JsValue) (es cs key : string),
    settled (generateCodeResponse host w message) = Fulfilled solution ->
    GetField solution "solutionExplanation" = Return explanation ->
    GetField solution "code" = Return code ->
    ToString (Number_toString host) explanation = Return es ->
    ToString (Number_toString host) code = Return cs ->
    MOCHI_API_KEY w = Some key -> key <> "" ->
    exists ps,
      ToString (Number_toString host) problem = Return ps /\
      In (Fetch (card_request key
                   ("What is the key techinque to solve this problem?" ++ LF ++
                    ps ++ LF ++ "---" ++ LF ++ es ++ LF ++
                    "```python" ++ LF ++ cs ++ LF ++ "```")))
         (events (background host w message description)).
Proof.
  intros Hd Hchat Hcontent Hfalsy.
  assert (Hp : settled (generateProblemDescription host w description) = Fulfilled problem).
  { rewrite (generateProblemDescription_settled host w description prompt Hd).
    now rewrite Hchat, Hcontent. }
  split; [exact Hp|].
  intros message solution explanation code es cs key Hs He Hc Hes Hcs Hkey Hne.
  destruct (falsy_converts host problem Hfalsy) as [ps Hps].
  exists ps. split; [exact Hps|].
  destruct (background_joined host w message description problem solution
              explanation code Hp Hs He Hc) as [rest ->].
  apply in_or_app. right. apply in_or_app. right. right.
  apply in_or_app. left.
  rewrite createMochiCard_events, Hkey.
  rewrite (cardContent_converted host problem explanation code ps es cs Hps Hes Hcs).
  destruct key as [|a key]; [congruence|].
  left. reflexivity.
Qed.

Lemma empty_problem_is_tolerated_witness :
  ToString Reference.Number_toString (JStr "Given an array...") =
    Return "Given an array..." /\
  chat_completions_create Reference.reformatting_empty
      (problem_request (problem_prompt ++ "Given an array...")) =
    Fulfilled Reference.no_choice /\
  first_choice_content Reference.no_choice = Return JUndefined /\
  truthy JUndefined = false /\
  settled (generateProblemDescription Reference.host Reference.reformatting_empty
             (JStr "Given an array...")) = Fulfilled JUndefined /\
  In (Fetch (card_request "s3cret"
               ("What is the key techinque to solve this problem?" ++ LF ++
                "undefined" ++ LF ++ "---" ++ LF ++ "Use a hash map." ++ LF ++
                "```python" ++ LF ++ "def two_sum(nums, target): pass" ++ LF ++ "```")))
     (events (background Reference.host Reference.reformatting_empty
                (JStr "two sum solution...") (JStr "Given an array..."))).
Proof.
  split; [reflexivity|]. split; [reflexivity|]. split; [reflexivity|].
  split; [reflexivity|].
  destruct (empty_problem_is_tolerated Reference.host Reference.reformatting_empty
              (JStr "Given an array...") "Given an array..."
              Reference.no_choice JUndefined eq_refl eq_refl eq_refl eq_refl)
    as [Hp Hcard].
  split; [exact Hp|].
  destruct (Hcard (JStr "two sum solution...")
              (JObj [("solutionExplanation", JStr "Use a hash map.");
                     ("code", JStr "def two_sum(nums, target): pass")])
              (JStr "Use a hash map.") (JStr "def two_sum(nums, target): pass")
              "Use a hash map." "def two_sum(nums, target): pass" "s3cret")
    as (ps & Hps & Hin);
    try discriminate; try (vm_compute; reflexivity).
  injection Hps as <-. exact Hin.
Defined.

(** * Further properties of the server *)

Section RunEquations.

Context {E A B : Type}.
Local Open Scope list_scope.

Lemma events_bind (m : Run E A) (k : A -> Run E B) :
  events (bind m k) =
    events m ++ match settled m with
                | Fulfilled a => events (k a)
                | _ => []
                end.
Proof.
  unfold bind. destruct (settled m); simpl; now rewrite ?app_nil_r.
Qed.

Lemma settled_bind (m : Run E A) (k : A -> Run E B) :
  settled (bind m k) =
    match settled m with
    | Fulfilled a => settled (k a)
    | Rejected e => Rejected e
    | Pending => Pending
    end.
Proof. unfold bind. now destruct (settled m). Qed.

Lemma events_try_catch (m : Run E A) (h : Thrown -> Run E A) :
  events (try_catch m h) =
    events m ++ match settled m with
                | Rejected e => events (h e)
                | _ => []
                end.
Proof.
  unfold try_catch. destruct (settled m) eqn:H; simpl; now rewrite ?app_nil_r.
Qed.

Lemma settled_try_catch (m : Run E A) (h : Thrown -> Run E A) :
  settled (try_catch m h) =
    match settled m with
    | Rejected e => settled (h e)
    | other => other
    end.
Proof.
  unfold try_catch. destruct (settled m) eqn:H; simpl; congruence.
Qed.

Lemma Promise_all_fulfilled_inv (b : bool) (p : Run E A) (q : Run E B) (x : A) (y : B) :
  settled (Promise_all b p q) = Fulfilled (x, y) ->
  settled p = Fulfilled x /\ settled q = Fulfilled y.
Proof.
  simpl. destruct (settled p), (settled q); try discriminate.
  - intros H. injection H as -> ->. now split.
  - destruct (negb (suspended p)); [discriminate|].
    destruct (negb (suspended q)); [discriminate|].
    destruct b; discriminate.
Qed.

End RunEquations.

Section Handler.

Variable host : Host.
Variable w : World.

Lemma GetField_defined (v : JsValue) (k : string) :
  is_nullish v = false -> GetField v k = Return (GetFieldOpt v k).
Proof. destruct v; simpl; intros H; try discriminate; reflexivity. Qed.

(** The handler on a body that is [undefined] or [null]. *)
Lemma post_api_data_nullish (body : JsValue) :
  is_nullish body = true ->
  post_api_data host w body =
    mkRun [Console error
             [text "Error handling request:";
              thrown (ErrorObject TypeError
                        ("Cannot destructure property 'message' of 'req.body' as it is " ++
                         describe_nullish body ++ "."))];
           Respond 500
             (JObj [("error", JStr "Failed to submit request");
                    ("details",
                     JStr ("Cannot destructure property 'message' of 'req.body' as it is " ++
                           describe_nullish body ++ "."))])]
          false (Fulfilled tt).
Proof.
  intros H. unfold post_api_data, destructure. rewrite H. reflexivity.
Qed.

(** The handler on any other body. *)
Lemma post_api_data_defined (body : JsValue) :
  is_nullish body = false ->
  post_api_data host w body =
    if negb (truthy (GetFieldOpt body "message")) ||
       negb (truthy (GetFieldOpt body "description"))
    then mkRun [Respond 400 validation_error] false (Fulfilled tt)
    else mkRun (Respond 200 acknowledgment ::
                events (background host w (GetFieldOpt body "message")
                                          (GetFieldOpt body "description")))
               false (Fulfilled tt).
Proof.
  intros H. unfold post_api_data, destructure.
  rewrite H, !(GetField_defined body _ H).
  cbn [cbind lift].
  rewrite (bind_fulfilled (ret _) _ _ eq_refl).
  cbn [ret events suspended settled app orb].
  destruct (negb _ || negb _); reflexivity.
Qed.

End Handler.

(** X1.  Whatever the body and whatever the remote services do, the
    handler completes and writes exactly one response: [500] when the body
    is [undefined] or [null], the validation error [400] when a field is
    falsy, the acknowledgment [200] otherwise. *)
Theorem handler_answers_exactly_once (host : Host) (w : World) (body : JsValue) :
  settled (post_api_data host w body) = Fulfilled tt /\
  exists code json,
    responses (events (post_api_data host w body)) = [(code, json)] /\
    ((code = 500 /\ is_nullish body = true) \/
     (code = 400 /\ json = validation_error /\ is_nullish body = false /\
      (truthy (GetFieldOpt body "message") = false \/
       truthy (GetFieldOpt body "description") = false)) \/
     (code = 200 /\ json = acknowledgment /\ is_nullish body = false /\
      truthy (GetFieldOpt body "message") = true /\
      truthy (GetFieldOpt body "description") = true)).
Proof.
  destruct (is_nullish body) eqn:Hn.
  - rewrite (post_api_data_nullish host w body Hn).
    split; [reflexivity|]. do 2 eexists. split; [reflexivity|]. left. now split.
  - rewrite (post_api_data_defined host w body Hn).
    destruct (truthy (GetFieldOpt body "message")) eqn:Hm;
      destruct (truthy (GetFieldOpt body "description")) eqn:Hd; simpl;
      (split; [reflexivity|]).
    + exists 200, acknowledgment. split.
      * unfold responses. simpl. f_equal. apply responses_quiet, background_quiet.
      * right. right. now repeat split.
    + exists 400, validation_error. split; [reflexivity|].
      right. left. repeat split. now right.
    + exists 400, validation_error. split; [reflexivity|].
      right. left. repeat split. now left.
    + exists 400, validation_error. split; [reflexivity|].
      right. left. repeat split. now left.
Qed.

(** X2.  A body that is [undefined] or [null] makes the destructuring
    throw; the handler logs the error and answers [500] with
    [error: "Failed to submit request"] and the message of the error as
    [details], and makes no outbound call. *)
Theorem nullish_body_is_server_error (host : Host) (w : World) (body : JsValue) :
  is_nullish body = true ->
  exists message,
    post_api_data host w body =
      mkRun [Console error [text "Error handling request:";
                            thrown (ErrorObject TypeError message)];
             Respond 500 (JObj [("error", JStr "Failed to submit request");
                                ("details", JStr message)])]
            false (Fulfilled tt)
    /\ outbound (events (post_api_data host w body)) = [].
Proof.
  intros H. eexists. rewrite (post_api_data_nullish host w body H).
  split; reflexivity.
Qed.

Lemma nullish_body_is_server_error_witness :
  is_nullish JUndefined = true /\
  exists message,
    post_api_data Reference.host Reference.cooperative JUndefined =
      mkRun [Console error [text "Error handling request:";
                            thrown (ErrorObject TypeError message)];
             Respond 500 (JObj [("error", JStr "Failed to submit request");
                                ("details", JStr message)])]
            false (Fulfilled tt)
    /\ outbound (events (post_api_data Reference.host Reference.cooperative JUndefined)) = [].
Proof.
  split; [reflexivity|].
  exact (nullish_body_is_server_error Reference.host Reference.cooperative JUndefined eq_refl).
Defined.

(** X3.  The promise of the background task is never rejected: every
    failure inside it is caught and logged, so dropping the promise leaves
    no unhandled rejection.  It is fulfilled, or stays pending with an
    outbound call that never completes. *)
Theorem background_never_rejects
    (host : Host) (w : World) (message description : JsValue) :
  settled (background host w message description) = Fulfilled tt \/
  settled (background host w message description) = Pending.
Proof.
  unfold background. rewrite settled_try_catch.
  match goal with
  | |- context [settled (bind ?m ?k)] => destruct (settled (bind m k)) as [[]| |]
  end; auto.
Qed.

Section CardSink.

Variable host : Host.
Variable w : World.

(** The promise of [createMochiCard] once the request is made. *)
Lemma createMochiCard_settled (p e c : JsValue) (a : ascii) (key content : string) :
  MOCHI_API_KEY w = Some (String a key) ->
  cardContent host p e c = Return content ->
  settled (createMochiCard host w p e c) =
    match fetch w (card_request (String a key) content) with
    | Fulfilled response =>
        match payload response with
        | Fulfilled body =>
            if ok response then
              match JSON_parse host body with
              | Return v => Fulfilled v
              | Throws err => Rejected err
              end
            else
              Rejected (ErrorObject PlainError
                          ("Mochi API Error " ++ string_of_nat (status response) ++
                           ": " ++ body))
        | Rejected err => Rejected err
        | Pending => Pending
        end
    | Rejected err => Rejected err
    | Pending => Pending
    end.
Proof.
  intros Hkey Hcontent. unfold createMochiCard. rewrite Hkey, Hcontent.
  cbn [lift bind ret emit await settled events suspended app].
  destruct (fetch w _) as [response| |]; try reflexivity.
  cbn [lift bind ret emit await settled events suspended app].
  destruct (ok response); cbn [negb];
    destruct (payload response) as [body| |]; try reflexivity.
  cbn [lift bind ret emit await settled events suspended app].
  destruct (JSON_parse host body); reflexivity.
Qed.

End CardSink.

(** X6.  When the card service answers with a status outside 200..299,
    [createMochiCard] is rejected with an [Error] whose message is
    [Mochi API Error], the status and the text of the answer; the request
    was made once and is not repeated. *)
Theorem createMochiCard_reports_refusal
    (host : Host) (w : World) (p e c : JsValue) (key content errorText : string)
    (response : FetchResponse) :
  MOCHI_API_KEY w = Some key -> key <> "" ->
  cardContent host p e c = Return content ->
  fetch w (card_request key content) = Fulfilled response ->
  ok response = false ->
  payload response = Fulfilled errorText ->
  settled (createMochiCard host w p e c) =
    Rejected (ErrorObject PlainError
                ("Mochi API Error " ++ string_of_nat (status response) ++ ": " ++ errorText))
  /\ events (createMochiCard host w p e c) = [Fetch (card_request key content)].
Proof.
  intros Hkey Hne Hcontent Hfetch Hok Hpayload.
  destruct key as [|a key]; [congruence|].
  rewrite (createMochiCard_settled host w p e c a key content Hkey Hcontent).
  rewrite createMochiCard_events, Hkey, Hcontent, Hfetch, Hpayload, Hok.
  split; reflexivity.
Qed.

Lemma createMochiCard_reports_refusal_witness :
  MOCHI_API_KEY Scenarios.card_refused = Some "s3cret" /\
  "s3cret" <> "" /\
  cardContent Reference.host (JStr "p") (JStr "e") (JStr "c") =
    Return ("What is the key techinque to solve this problem?" ++ LF ++ "p" ++ LF ++
            "---" ++ LF ++ "e" ++ LF ++ "```python" ++ LF ++ "c" ++ LF ++ "```") /\
  ok Scenarios.unauthorized = false /\
  settled (createMochiCard Reference.host Scenarios.card_refused
             (JStr "p") (JStr "e") (JStr "c")) =
    Rejected (ErrorObject PlainError "Mochi API Error 401: bad key").
Proof.
  split; [reflexivity|]. split; [discriminate|]. split; [reflexivity|].
  split; [reflexivity|].
  refine (proj1 (createMochiCard_reports_refusal Reference.host Scenarios.card_refused
                   (JStr "p") (JStr "e") (JStr "c") "s3cret" _ "bad key"
                   Scenarios.unauthorized eq_refl _ eq_refl eq_refl eq_refl eq_refl)).
  discriminate.
Defined.

(** X7.  When the card service answers with a status in 200..299,
    [createMochiCard] gives the body of the answer parsed as JSON; a body
    that is not JSON rejects the call with the parse error, although the
    service accepted the card. *)
Theorem createMochiCard_returns_parsed_body
    (host : Host) (w : World) (p e c : JsValue) (key content body : string)
    (response : FetchResponse) :
  MOCHI_API_KEY w = Some key -> key <> "" ->
  cardContent host p e c = Return content ->
  fetch w (card_request key content) = Fulfilled response ->
  ok response = true ->
  payload response = Fulfilled body ->
  settled (createMochiCard host w p e c) =
    match JSON_parse host body with
    | Return card => Fulfilled card
    | Throws err => Rejected err
    end.
Proof.
  intros Hkey Hne Hcontent Hfetch Hok Hpayload.
  destruct key as [|a key]; [congruence|].
  rewrite (createMochiCard_settled host w p e c a key content Hkey Hcontent).
  now rewrite Hfetch, Hpayload, Hok.
Qed.

Lemma createMochiCard_returns_parsed_body_witness :
  MOCHI_API_KEY Reference.cooperative = Some "s3cret" /\
  "s3cret" <> "" /\
  ok Reference.created = true /\
  settled (createMochiCard Reference.host Reference.cooperative
             (JStr "p") (JStr "e") (JStr "c")) =
    Fulfilled (JObj [("id", JStr "c4rd")]).
Proof.
  split; [reflexivity|]. split; [discriminate|]. split; [reflexivity|].
  refine (eq_trans
            (createMochiCard_returns_parsed_body Reference.host Reference.cooperative
               (JStr "p") (JStr "e") (JStr "c") "s3cret" _ _
               Reference.created eq_refl _ eq_refl eq_refl eq_refl eq_refl) _).
  - discriminate.
  - vm_compute. reflexivity.
Defined.

Section Task.

Variable host : Host.
Variable w : World.

Abbreviation str := (ToString (Number_toString host)).
Abbreviation reformat := (generateProblemDescription host w).
Abbreviation extract := (generateCodeResponse host w).
Abbreviation join message description :=
  (Promise_all (extraction_completes_first w) (reformat description) (extract message)).

(** The task is the join, then [after_join], inside the [try] whose
    [catch] is [report]. *)
Lemma background_stages (message description : JsValue) :
  background host w message description =
    try_catch (bind (join message description)
                    (fun '(problem, solution) => Stages.after_join host w problem solution))
              Stages.report.
Proof. reflexivity. Qed.

Lemma after_join_closing (problem solution : JsValue) :
  is_nullish solution = false ->
  Stages.after_join host w problem solution =
    bind (emit (Console log [text "Creating Mochi card..."]))
         (fun _ => bind (createMochiCard host w problem
                           (GetFieldOpt solution "solutionExplanation")
                           (GetFieldOpt solution "code"))
                        (Stages.closing_lines host)).
Proof.
  intros H. unfold Stages.after_join.
  rewrite !(GetField_defined solution _ H). reflexivity.
Qed.

Lemma after_join_nullish (solution problem : JsValue) :
  is_nullish solution = true ->
  exists message,
    Stages.after_join host w problem solution =
      mkRun [] false (Rejected (ErrorObject TypeError message)).
Proof.
  destruct solution; try discriminate; intros _; eexists; reflexivity.
Qed.

(** The events of the task: the two calls of the join, then what follows
    the join. *)
Lemma background_events (message description : JsValue) :
  events (background host w message description) =
    (events (reformat description) ++ events (extract message) ++
     match settled (join message description) with
     | Fulfilled (problem, solution) =>
         events (Stages.after_join host w problem solution) ++
         match settled (Stages.after_join host w problem solution) with
         | Rejected e => events (Stages.report e)
         | _ => []
         end
     | Rejected e => events (Stages.report e)
     | Pending => []
     end)%list.
Proof.
  rewrite background_stages, events_try_catch, events_bind, settled_bind.
  cbn [Promise_all events]. rewrite <- !app_assoc. do 2 f_equal.
  destruct (settled (join message description)) as [[problem solution]| |];
    cbn [app]; now rewrite ?app_nil_r.
Qed.

End Task.

Section TaskCalls.

Variable host : Host.
Variable w : World.

Abbreviation str := (ToString (Number_toString host)).
Abbreviation reformat := (generateProblemDescription host w).
Abbreviation extract := (generateCodeResponse host w).
Abbreviation join message description :=
  (Promise_all (extraction_completes_first w) (reformat description) (extract message)).

Lemma report_silent (e : Thrown) : Forall Calls.silent_event (events (Stages.report e)).
Proof. repeat constructor. Qed.

Lemma closing_lines_silent (card : JsValue) :
  Forall Calls.silent_event (events (Stages.closing_lines host card)).
Proof.
  unfold Stages.closing_lines.
  apply Forall_events_bind; [|intros; repeat constructor].
  destruct (truthy card); [|constructor].
  apply Forall_events_bind; [apply Forall_events_lift | intros; repeat constructor].
Qed.

Lemma silent_no_calls (t : list Event) :
  Forall Calls.silent_event t ->
  filter Calls.is_chat t = [] /\ filter Calls.is_fetch t = [] /\ outbound t = [].
Proof.
  induction 1 as [|ev t Hev _ (IH1 & IH2 & IH3)]; [now repeat split|].
  unfold outbound in *. simpl. rewrite IH1, IH2, IH3.
  destruct ev; try discriminate; now repeat split.
Qed.

(** What follows the join makes no completion call and at most one
    [fetch], and a [fetch] only as the first thing after the line
    [Creating Mochi card...]. *)
Lemma after_join_calls (problem solution : JsValue) :
  let t := events (Stages.after_join host w problem solution) in
  filter Calls.is_chat t = [] /\
  outbound t = filter Calls.is_fetch t /\
  (filter Calls.is_fetch t = [] \/
   exists a key content,
     MOCHI_API_KEY w = Some (String a key) /\
     is_nullish solution = false /\
     cardContent host problem (GetFieldOpt solution "solutionExplanation")
                              (GetFieldOpt solution "code") = Return content /\
     filter Calls.is_fetch t = [Fetch (card_request (String a key) content)]).
Proof.
  destruct (is_nullish solution) eqn:Hn.
  { destruct (after_join_nullish host w solution problem Hn) as [msg ->].
    simpl. repeat split. now left. }
  rewrite (after_join_closing host w problem solution Hn).
  rewrite !events_bind. cbn [emit events settled app].
  rewrite createMochiCard_events.
  assert (Htail : forall (X : Settled JsValue),
            Forall Calls.silent_event
              match X with
              | Fulfilled card => events (Stages.closing_lines host card)
              | _ => []
              end).
  { intros [card| |]; [apply closing_lines_silent | constructor | constructor]. }
  specialize (Htail (settled (createMochiCard host w problem
                                (GetFieldOpt solution "solutionExplanation")
                                (GetFieldOpt solution "code")))).
  destruct (silent_no_calls _ Htail) as (T1 & T2 & T3).
  unfold outbound in *.
  destruct (MOCHI_API_KEY w) as [[|a key]|] eqn:Hkey;
    cbn [filter app Calls.is_chat Calls.is_fetch is_outbound];
    try (rewrite T1, T2, T3; repeat split; now left).
  destruct (cardContent host problem _ _) as [content|] eqn:Hcontent;
    cbn [filter app Calls.is_chat Calls.is_fetch is_outbound];
    rewrite T1, T2, T3; repeat split; try (now left).
  right. exists a, key, content. now repeat split.
Qed.

(** The two calls of the join are completion calls, at most one each. *)
Lemma join_calls (message description : JsValue) :
  let t := (events (reformat description) ++ events (extract message))%list in
  filter Calls.is_fetch t = [] /\
  outbound t = filter Calls.is_chat t /\
  length (filter Calls.is_chat t) <= 2.
Proof.
  rewrite generateProblemDescription_events, generateCodeResponse_events.
  destruct (str description), (str message); simpl; repeat split; lia.
Qed.

End TaskCalls.


(** X5.  A card is only ever made of both halves: if the task calls the
    card service, then the reformatting and the extraction were both
    fulfilled, the extraction was not [null], the credential is set, and
    the card is the one composed of the reformatted problem and the two
    fields of the extraction. *)
Theorem card_needs_both_halves
    (host : Host) (w : World) (message description : JsValue) (req : FetchRequest) :
  In (Fetch req) (events (background host w message description)) ->
  exists (problem solution : JsValue) (key content : string),
    settled (generateProblemDescription host w description) = Fulfilled problem /\
    settled (generateCodeResponse host w message) = Fulfilled solution /\
    is_nullish solution = false /\
    MOCHI_API_KEY w = Some key /\ key <> "" /\
    cardContent host problem (GetFieldOpt solution "solutionExplanation")
                             (GetFieldOpt solution "code") = Return content /\
    req = card_request key content.
Proof.
  intros Hin.
  assert (Hf : In (Fetch req)
                  (filter Calls.is_fetch (events (background host w message description)))).
  { apply filter_In. now split. }
  rewrite background_events, app_assoc in Hf.
  destruct (join_calls host w message description) as (J1 & _ & _).
  set (front := (events (generateProblemDescription host w description) ++
                 events (generateCodeResponse host w message))%list) in *.
  rewrite filter_app, J1 in Hf. cbn [app] in Hf.
  destruct (settled (Promise_all _ _ _)) as [[problem solution]| |] eqn:Hjoin.
  - apply Promise_all_fulfilled_inv in Hjoin. destruct Hjoin as [Hp Hq].
    rewrite filter_app in Hf.
    assert (R : filter Calls.is_fetch
                  match settled (Stages.after_join host w problem solution) with
                  | Rejected e => events (Stages.report e)
                  | _ => []
                  end = []).
    { destruct (settled (Stages.after_join host w problem solution));
        [reflexivity | apply (silent_no_calls _ (report_silent e)) | reflexivity]. }
    rewrite R, app_nil_r in Hf.
    destruct (after_join_calls host w problem solution)
      as (_ & _ & [A | (a & key & content & Hkey & Hn & Hcontent & A)]);
      rewrite A in Hf.
    + destruct Hf.
    + destruct Hf as [Hf|[]]. injection Hf as <-.
      exists problem, solution, (String a key), content.
      repeat split; try assumption. discriminate.
  - destruct (silent_no_calls _ (report_silent e)) as (_ & R & _).
    rewrite R in Hf. destruct Hf.
  - destruct Hf.
Qed.

Lemma card_needs_both_halves_witness :
  In (Fetch Reference.two_sum_card)
     (events (background Reference.host Reference.cooperative
                (JStr "two sum solution...") (JStr "Given an array..."))) /\
  exists (problem solution : JsValue) (key content : string),
    settled (generateProblemDescription Reference.host Reference.cooperative
               (JStr "Given an array...")) = Fulfilled problem /\
    settled (generateCodeResponse Reference.host Reference.cooperative
               (JStr "two sum solution...")) = Fulfilled solution /\
    is_nullish solution = false /\
    MOCHI_API_KEY Reference.cooperative = Some key /\ key <> "" /\
    cardContent Reference.host problem (GetFieldOpt solution "solutionExplanation")
                                       (GetFieldOpt solution "code") = Return content /\
    Reference.two_sum_card = card_request key content.
Proof.
  assert (H : In (Fetch Reference.two_sum_card)
                 (events (background Reference.host Reference.cooperative
                            (JStr "two sum solution...") (JStr "Given an array...")))).
  { vm_compute. right. right. right. left. reflexivity. }
  split; [exact H|].
  exact (card_needs_both_halves Reference.host Reference.cooperative
           (JStr "two sum solution...") (JStr "Given an array...")
           Reference.two_sum_card H).
Defined.

Section TaskTraces.

Variable host : Host.
Variable w : World.

(** The task once both calls are fulfilled with a solution that is not
    [null]: the line [Creating Mochi card...], the card call, and the
    closing lines when that call is fulfilled. *)
Lemma background_joined_trace (message description problem solution : JsValue) :
  settled (generateProblemDescription host w description) = Fulfilled problem ->
  settled (generateCodeResponse host w message) = Fulfilled solution ->
  is_nullish solution = false ->
  let card := createMochiCard host w problem
                (GetFieldOpt solution "solutionExplanation")
                (GetFieldOpt solution "code") in
  events (background host w message description) =
    (events (generateProblemDescription host w description) ++
     events (generateCodeResponse host w message) ++
     Console log [text "Creating Mochi card..."] ::
     events card ++
     match settled card with
     | Fulfilled mochiCard =>
         events (Stages.closing_lines host mochiCard) ++
         match settled (Stages.closing_lines host mochiCard) with
         | Rejected e => events (Stages.report e)
         | _ => []
         end
     | Rejected e => events (Stages.report e)
     | Pending => []
     end)%list.
Proof.
  intros Hp Hs Hn card.
  rewrite background_events.
  rewrite (Promise_all_fulfilled _ _ _ _ _ Hp Hs).
  rewrite (after_join_closing host w problem solution Hn).
  rewrite !events_bind, !settled_bind. cbn [emit events settled app].
  fold card. do 3 f_equal.
  destruct (settled card) as [mochiCard| |]; now rewrite <- ?app_assoc, ?app_nil_r.
Qed.

End TaskTraces.

(** X8.  Without the card credential the task still runs to its end: when
    both completion calls are fulfilled (and the solution is not [null]),
    it logs [Creating Mochi card...], the warning that the card is
    skipped, and the success line; it makes no further call, reports no
    card and no error, and its promise is fulfilled. *)
Theorem task_without_credential
    (host : Host) (w : World) (message description problem solution : JsValue) :
  settled (generateProblemDescription host w description) = Fulfilled problem ->
  settled (generateCodeResponse host w message) = Fulfilled solution ->
  is_nullish solution = false ->
  MOCHI_API_KEY w = None \/ MOCHI_API_KEY w = Some "" ->
  events (background host w message description) =
    (events (generateProblemDescription host w description) ++
     events (generateCodeResponse host w message) ++
     [Console log [text "Creating Mochi card..."];
      Console warn [text "Skipping Mochi card creation: MOCHI_API_KEY is missing."];
      Console log [text "✅ Processing completed successfully"]])%list
  /\ settled (background host w message description) = Fulfilled tt.
Proof.
  intros Hp Hs Hn Hkey.
  assert (E : createMochiCard host w problem
                (GetFieldOpt solution "solutionExplanation") (GetFieldOpt solution "code") =
              mkRun [Console warn [text "Skipping Mochi card creation: MOCHI_API_KEY is missing."]]
                    false (Fulfilled JNull)).
  { destruct Hkey as [H|H]; unfold createMochiCard; rewrite H; reflexivity. }
  split.
  - rewrite (background_joined_trace host w message description problem solution Hp Hs Hn).
    rewrite E. reflexivity.
  - rewrite background_stages, settled_try_catch, settled_bind.
    rewrite (Promise_all_fulfilled _ _ _ _ _ Hp Hs).
    rewrite (after_join_closing host w problem solution Hn).
    rewrite !settled_bind. cbn [emit settled]. rewrite E. reflexivity.
Qed.

Lemma task_without_credential_witness :
  settled (generateProblemDescription Reference.host Scenarios.no_credential
             (JStr "Given an array...")) = Fulfilled (JStr "**Two Sum**") /\
  (MOCHI_API_KEY Scenarios.no_credential = None \/
   MOCHI_API_KEY Scenarios.no_credential = Some "") /\
  events (background Reference.host Scenarios.no_credential
            (JStr "two sum solution...") (JStr "Given an array...")) =
    (events (generateProblemDescription Reference.host Scenarios.no_credential
               (JStr "Given an array...")) ++
     events (generateCodeResponse Reference.host Scenarios.no_credential
               (JStr "two sum solution...")) ++
     [Console log [text "Creating Mochi card..."];
      Console warn [text "Skipping Mochi card creation: MOCHI_API_KEY is missing."];
      Console log [text "✅ Processing completed successfully"]])%list
  /\ settled (background Reference.host Scenarios.no_credential
                (JStr "two sum solution...") (JStr "Given an array...")) = Fulfilled tt.
Proof.
  split; [reflexivity|]. split; [left; reflexivity|].
  refine (task_without_credential Reference.host Scenarios.no_credential
            (JStr "two sum solution...") (JStr "Given an array...")
            (JStr "**Two Sum**")
            (JObj [("solutionExplanation", JStr "Use a hash map.");
                   ("code", JStr "def two_sum(nums, target): pass")])
            eq_refl _ eq_refl (or_introl eq_refl)).
  vm_compute. reflexivity.
Defined.

(** X9.  The trace of a submission that succeeds: when both completion
    calls are fulfilled and the card service accepts the card with a JSON
    body that is truthy, the task logs [Creating Mochi card...], makes the
    one card request, logs the [id] of the answer as converted to a string
    (["undefined"] when the answer has none), and logs the success line. *)
Theorem task_success_trace
    (host : Host) (w : World) (message description problem solution mochiCard : JsValue)
    (key content body id : string) (response : FetchResponse) :
  settled (generateProblemDescription host w description) = Fulfilled problem ->
  settled (generateCodeResponse host w message) = Fulfilled solution ->
  is_nullish solution = false ->
  MOCHI_API_KEY w = Some key -> key <> "" ->
  cardContent host problem (GetFieldOpt solution "solutionExplanation")
                           (GetFieldOpt solution "code") = Return content ->
  fetch w (card_request key content) = Fulfilled response ->
  ok response = true ->
  payload response = Fulfilled body ->
  JSON_parse host body = Return mochiCard ->
  truthy mochiCard = true ->
  ToString (Number_toString host) (GetFieldOpt mochiCard "id") = Return id ->
  events (background host w message description) =
    (events (generateProblemDescription host w description) ++
     events (generateCodeResponse host w message) ++
     [Console log [text "Creating Mochi card..."];
      Fetch (card_request key content);
      Console log [text ("✅ Card created in Mochi: " ++ id)];
      Console log [text "✅ Processing completed successfully"]])%list.
Proof.
  intros Hp Hs Hn Hkey Hne Hcontent Hfetch Hok Hpayload Hparse Htruthy Hid.
  rewrite (background_joined_trace host w message description problem solution Hp Hs Hn).
  cbv zeta.
  destruct key as [|a key]; [congruence|].
  rewrite (createMochiCard_settled host w _ _ _ a key content Hkey Hcontent).
  rewrite Hfetch, Hpayload, Hok, Hparse.
  rewrite createMochiCard_events, Hkey, Hcontent.
  assert (Hnn : is_nullish mochiCard = false).
  { destruct mochiCard; try reflexivity; discriminate. }
  unfold Stages.closing_lines.
  rewrite Htruthy, (GetField_defined mochiCard "id" Hnn).
  cbn [cbind]. rewrite Hid. reflexivity.
Qed.

Lemma task_success_trace_witness :
  settled (generateProblemDescription Reference.host Reference.cooperative
             (JStr "Given an array...")) = Fulfilled (JStr "**Two Sum**") /\
  MOCHI_API_KEY Reference.cooperative = Some "s3cret" /\
  ok Reference.created = true /\
  events (background Reference.host Reference.cooperative
            (JStr "two sum solution...") (JStr "Given an array...")) =
    (events (generateProblemDescription Reference.host Reference.cooperative
               (JStr "Given an array...")) ++
     events (generateCodeResponse Reference.host Reference.cooperative
               (JStr "two sum solution...")) ++
     [Console log [text "Creating Mochi card..."];
      Fetch Reference.two_sum_card;
      Console log [text ("✅ Card created in Mochi: " ++ "c4rd")];
      Console log [text "✅ Processing completed successfully"]])%list.
Proof.
  split; [reflexivity|]. split; [reflexivity|]. split; [reflexivity|].
  refine (task_success_trace Reference.host Reference.cooperative
            (JStr "two sum solution...") (JStr "Given an array...")
            (JStr "**Two Sum**")
            (JObj [("solutionExplanation", JStr "Use a hash map.");
                   ("code", JStr "def two_sum(nums, target): pass")])
            (JObj [("id", JStr "c4rd")])
            "s3cret" _ _ "c4rd" Reference.created
            eq_refl _ eq_refl eq_refl _ eq_refl eq_refl eq_refl eq_refl _ eq_refl eq_refl).
  - vm_compute. reflexivity.
  - discriminate.
  - vm_compute. reflexivity.
Defined.

Section AfterTheJoin.

Variable host : Host.
Variable w : World.

(** Whatever follows the two calls of the join makes no completion
    call. *)
Lemma no_chat_after_join (message description : JsValue) :
  filter Calls.is_chat
    match settled (Promise_all (extraction_completes_first w)
                     (generateProblemDescription host w description)
                     (generateCodeResponse host w message)) with
    | Fulfilled (problem, solution) =>
        (events (Stages.after_join host w problem solution) ++
         match settled (Stages.after_join host w problem solution) with
         | Rejected e => events (Stages.report e)
         | _ => []
         end)%list
    | Rejected e => events (Stages.report e)
    | Pending => []
    end = [].
Proof.
  destruct (settled (Promise_all _ _ _)) as [[problem solution]| |].
  - destruct (after_join_calls host w problem solution) as (A1 & _ & _).
    rewrite filter_app, A1.
    destruct (settled (Stages.after_join host w problem solution));
      [reflexivity | apply (silent_no_calls _ (report_silent e)) | reflexivity].
  - apply (silent_no_calls _ (report_silent e)).
  - reflexivity.
Qed.

End AfterTheJoin.

(** X10.  An extraction that is fulfilled with [null] (the content was the
    JSON text [null]) stops the task as a rejection does: reading
    [solutionExplanation] throws a [TypeError], which is logged with its
    message; the line [Creating Mochi card...] is not reached and no card
    request is made. *)
Theorem null_extraction_aborts
    (host : Host) (w : World) (message description problem solution : JsValue) :
  settled (generateProblemDescription host w description) = Fulfilled problem ->
  settled (generateCodeResponse host w message) = Fulfilled solution ->
  is_nullish solution = true ->
  exists reason,
    events (background host w message description) =
      (events (generateProblemDescription host w description) ++
       events (generateCodeResponse host w message) ++
       [Console error [text "Error in background processing:";
                       thrown (ErrorObject TypeError reason)];
        Console error [text "Error details:"; text reason]])%list
    /\ filter Calls.is_fetch (events (background host w message description)) = [].
Proof.
  intros Hp Hs Hn.
  destruct (after_join_nullish host w solution problem Hn) as [reason E].
  exists reason.
  assert (Ev : events (background host w message description) =
      (events (generateProblemDescription host w description) ++
       events (generateCodeResponse host w message) ++
       [Console error [text "Error in background processing:";
                       thrown (ErrorObject TypeError reason)];
        Console error [text "Error details:"; text reason]])%list).
  { rewrite background_events, (Promise_all_fulfilled _ _ _ _ _ Hp Hs), E. reflexivity. }
  split; [exact Ev|].
  rewrite Ev, app_assoc, filter_app.
  destruct (join_calls host w message description) as (-> & _ & _). reflexivity.
Qed.

Lemma null_extraction_aborts_witness :
  settled (generateProblemDescription Reference.host Scenarios.extraction_null
             (JStr "Given an array...")) = Fulfilled (JStr "**Two Sum**") /\
  settled (generateCodeResponse Reference.host Scenarios.extraction_null
             (JStr "two sum solution...")) = Fulfilled JNull /\
  is_nullish JNull = true /\
  exists reason,
    events (background Reference.host Scenarios.extraction_null
              (JStr "two sum solution...") (JStr "Given an array...")) =
      (events (generateProblemDescription Reference.host Scenarios.extraction_null
                 (JStr "Given an array...")) ++
       events (generateCodeResponse Reference.host Scenarios.extraction_null
                 (JStr "two sum solution...")) ++
       [Console error [text "Error in background processing:";
                       thrown (ErrorObject TypeError reason)];
        Console error [text "Error details:"; text reason]])%list
    /\ filter Calls.is_fetch
         (events (background Reference.host Scenarios.extraction_null
                    (JStr "two sum solution...") (JStr "Given an array..."))) = [].
Proof.
  assert (Hs : settled (generateCodeResponse Reference.host Scenarios.extraction_null
                          (JStr "two sum solution...")) = Fulfilled JNull).
  { vm_compute. reflexivity. }
  split; [reflexivity|]. split; [exact Hs|]. split; [reflexivity|].
  exact (null_extraction_aborts Reference.host Scenarios.extraction_null
           (JStr "two sum solution...") (JStr "Given an array...")
           (JStr "**Two Sum**") JNull eq_refl Hs eq_refl).
Defined.

(** X11.  Every completion call of the task names the model [gpt-5-mini]
    and carries one message, of role [user]: a fixed prompt immediately
    followed by the submitted text as converted to a string.  The
    reformatting prompt goes without a response format; the extraction
    prompt goes with the JSON schema [manualJsonSchema]. *)
Theorem completion_requests_shape
    (host : Host) (w : World) (message description : JsValue) (req : ChatRequest) :
  In (ChatCompletionsCreate req) (events (background host w message description)) ->
  model req = "gpt-5-mini" /\
  exists submitted_text prompt,
    messages req = [ {| role := "user"; content := prompt ++ submitted_text |} ] /\
    ((ToString (Number_toString host) description = Return submitted_text /\
      prompt = problem_prompt /\
      response_format req = None) \/
     (ToString (Number_toString host) message = Return submitted_text /\
      prompt = code_prompt /\
      response_format req =
        Some (JObj [("type", JStr "json_schema"); ("json_schema", manualJsonSchema)]))).
Proof.
  intros Hin.
  assert (Hf : In (ChatCompletionsCreate req)
                  (filter Calls.is_chat (events (background host w message description)))).
  { apply filter_In. now split. }
  rewrite background_events, !filter_app, no_chat_after_join, app_nil_r in Hf.
  rewrite generateProblemDescription_events, generateCodeResponse_events in Hf.
  apply in_app_or in Hf. destruct Hf as [Hf|Hf].
  - destruct (ToString _ description) as [s|]; [|destruct Hf].
    destruct Hf as [Hf|[]]. injection Hf as <-.
    split; [reflexivity|]. exists s, problem_prompt. split; [reflexivity|].
    left. now repeat split.
  - destruct (ToString _ message) as [s|]; [|destruct Hf].
    destruct Hf as [Hf|[]]. injection Hf as <-.
    split; [reflexivity|]. exists s, code_prompt. split; [reflexivity|].
    right. now repeat split.
Qed.

Lemma completion_requests_shape_witness :
  In (ChatCompletionsCreate (code_request (code_prompt ++ "two sum solution...")))
     (events (background Reference.host Reference.silent
                (JStr "two sum solution...") (JStr "Given an array..."))) /\
  model (code_request (code_prompt ++ "two sum solution...")) = "gpt-5-mini" /\
  exists submitted_text prompt,
    messages (code_request (code_prompt ++ "two sum solution...")) =
      [ {| role := "user"; content := prompt ++ submitted_text |} ] /\
    ((ToString Reference.Number_toString (JStr "Given an array...") = Return submitted_text /\
      prompt = problem_prompt /\
      response_format (code_request (code_prompt ++ "two sum solution...")) = None) \/
     (ToString Reference.Number_toString (JStr "two sum solution...") = Return submitted_text /\
      prompt = code_prompt /\
      response_format (code_request (code_prompt ++ "two sum solution...")) =
        Some (JObj [("type", JStr "json_schema"); ("json_schema", manualJsonSchema)]))).
Proof.
  assert (H : In (ChatCompletionsCreate (code_request (code_prompt ++ "two sum solution...")))
                 (events (background Reference.host Reference.silent
                            (JStr "two sum solution...") (JStr "Given an array...")))).
  { vm_compute. right. left. reflexivity. }
  split; [exact H|].
  exact (completion_requests_shape Reference.host Reference.silent
           (JStr "two sum solution...") (JStr "Given an array...") _ H).
Defined.

(** * Properties of the client form *)

Section Trim.

Local Open Scope list_scope.

Lemma white1_not_visible (a : ascii) : Client.white1 a = true -> Client.visible a = false.
Proof.
  unfold Client.white1, Client.visible. intros H.
  apply andb_false_iff. rewrite !Nat.leb_gt.
  rewrite ?orb_true_iff, ?andb_true_iff, ?Nat.leb_le, ?Nat.eqb_eq in H. lia.
Qed.

Lemma white2_not_visible (a b : ascii) :
  Client.white2 a b = true -> Client.visible a = false /\ Client.visible b = false.
Proof.
  unfold Client.white2, Client.visible. intros H.
  rewrite ?andb_true_iff, ?Nat.eqb_eq in H. destruct H as [-> ->]. now split.
Qed.

Lemma white3_not_visible (a b c : ascii) :
  Client.white3 a b c = true ->
  Client.visible a = false /\ Client.visible b = false /\ Client.visible c = false.
Proof.
  unfold Client.white3, Client.visible. intros H.
  repeat (rewrite andb_true_iff in H || rewrite orb_true_iff in H ||
          rewrite Nat.leb_le in H || rewrite Nat.eqb_eq in H).
  repeat split; apply andb_false_iff; rewrite !Nat.leb_gt; lia.
Qed.

Variable two : ascii -> ascii -> bool.
Variable three : ascii -> ascii -> ascii -> bool.
Hypothesis two_not_visible :
  forall a b, two a b = true -> Client.visible a = false /\ Client.visible b = false.
Hypothesis three_not_visible :
  forall a b c, three a b c = true ->
    Client.visible a = false /\ Client.visible b = false /\ Client.visible c = false.

(** Stripping white space never removes a visible character. *)
Lemma strip_keeps_visible (n : nat) :
  forall (l : list ascii) (c : ascii),
    length l <= n -> Client.visible c = true -> In c l ->
    In c (Client.strip two three l).
Proof.
  induction n as [|n IH]; intros l c Hlen Hv Hin.
  - destruct l; [destruct Hin | simpl in Hlen; lia].
  - destruct l as [|a l1]; [destruct Hin|]. simpl in Hlen.
    cbn [Client.strip].
    destruct (Client.white1 a) eqn:W1.
    { apply IH; [lia | assumption |].
      destruct Hin as [->|Hin]; [|assumption].
      apply white1_not_visible in W1. congruence. }
    destruct l1 as [|b l2]; [assumption|]. simpl in Hlen.
    destruct (two a b) eqn:W2.
    { apply IH; [lia | assumption |].
      destruct (two_not_visible a b W2) as [Va Vb].
      destruct Hin as [->|[->|Hin]]; congruence || assumption. }
    destruct l2 as [|c' l3]; [assumption|]. simpl in Hlen.
    destruct (three a b c') eqn:W3; [|assumption].
    apply IH; [lia | assumption |].
    destruct (three_not_visible a b c' W3) as (Va & Vb & Vc).
    destruct Hin as [->|[->|[->|Hin]]]; congruence || assumption.
Qed.

(** Stripping removes a run of ASCII white space entirely. *)
Lemma strip_white (l : list ascii) :
  forallb Client.white1 l = true -> Client.strip two three l = [].
Proof.
  induction l as [|a l IH]; [reflexivity|].
  simpl. intros H. apply andb_true_iff in H. destruct H as [-> H]. now apply IH.
Qed.

End Trim.

(** A string with a visible character does not trim to the empty
    string. *)
Lemma trim_visible (s : string) (c : ascii) :
  In c (list_ascii_of_string s) -> Client.visible c = true -> Client.trim s <> "".
Proof.
  intros Hin Hv. unfold Client.trim, Client.trimEnd, Client.trimStart.
  assert (H : In c (rev (Client.strip (fun b a => Client.white2 a b)
                           (fun c b a => Client.white3 a b c)
                           (rev (Client.strip Client.white2 Client.white3
                                   (list_ascii_of_string s)))))).
  { apply in_rev. rewrite rev_involutive.
    apply (strip_keeps_visible _ _) with (n := length (rev (Client.strip Client.white2 Client.white3
                                   (list_ascii_of_string s)))); try assumption.
    - intros a b W. apply white2_not_visible in W. tauto.
    - intros a b c0 W. apply white3_not_visible in W. tauto.
    - apply Nat.le_refl.
    - apply -> in_rev.
      apply (strip_keeps_visible _ _ white2_not_visible white3_not_visible
               (length (list_ascii_of_string s))); auto. }
  destruct (rev _) as [|x t]; [destruct H|]. discriminate.
Qed.

(** A string of ASCII white space trims to the empty string. *)
Lemma trim_white (s : string) :
  forallb Client.white1 (list_ascii_of_string s) = true -> Client.trim s = "".
Proof.
  intros H. unfold Client.trim, Client.trimEnd, Client.trimStart.
  now rewrite (strip_white _ _ _ H).
Qed.

Section Form.

Variable host : Host.
Variable browser_fetch : FetchRequest -> Settled FetchResponse.

Abbreviation blank st :=
  (String.eqb (Client.trim (Client.text st)) "" ||
   String.eqb (Client.trim (Client.problemDescription st)) "").

(** With a blank field [handleSubmit] returns at once. *)
Lemma handleSubmit_blank (st : Client.State) :
  blank st = true ->
  Client.handleSubmit host browser_fetch st =
    mkRun [Client.PreventDefault] false (Fulfilled tt).
Proof.
  intros H. unfold Client.handleSubmit. rewrite H. reflexivity.
Qed.

(** Otherwise it posts the submission, and ends according to the
    answer. *)
Lemma handleSubmit_filled (st : Client.State) :
  blank st = false ->
  Client.handleSubmit host browser_fetch st =
    let start := [Client.PreventDefault; Client.SetIsSubmitting true;
                  Client.Fetch (Client.submission st)] in
    let failed e := mkRun (start ++ [Client.ConsoleError e; Client.SetIsSubmitting false])%list
                          true (Fulfilled tt) in
    let stuck := mkRun start true Pending in
    match browser_fetch (Client.submission st) with
    | Fulfilled response =>
        match payload response with
        | Fulfilled body =>
            match JSON_parse host body with
            | Return result =>
                mkRun (start ++ [Client.ConsoleLog result; Client.SetIsSubmitting false])%list
                      true (Fulfilled tt)
            | Throws e => failed e
            end
        | Rejected e => failed e
        | Pending => stuck
        end
    | Rejected e => failed e
    | Pending => stuck
    end.
Proof.
  intros H. unfold Client.handleSubmit. rewrite H.
  destruct (browser_fetch (Client.submission st)) as [response| |] eqn:Hf;
    [destruct (payload response) as [body| |] eqn:Hp;
       [destruct (JSON_parse host body) eqn:Hj|..]|..];
    unfold bind, try_catch, Client.finally;
    cbn [emit await lift ret throw events settled suspended app orb];
    rewrite ?Hf; cbn [events settled suspended app orb];
    rewrite ?Hp; cbn [events settled suspended app orb];
    rewrite ?Hj; reflexivity.
Qed.

End Form.

(** X13.  Client and server agree: whatever [handleSubmit] posts is a
    body that the handler of [POST /api/data] acknowledges with [200], the
    server reading back the object that the client serialised; the form
    never draws the validation error. *)
Theorem form_posts_are_accepted
    (host : Host) (browser_fetch : FetchRequest -> Settled FetchResponse)
    (st : Client.State) (req : FetchRequest) (server : Host) (w : World) :
  In (Client.Fetch req) (events (Client.handleSubmit host browser_fetch st)) ->
  url req = "/api/data" /\ method req = "POST" /\
  responses (events (post_api_data server w (body_json req))) = [(200, acknowledgment)].
Proof.
  intros Hin.
  destruct (String.eqb (Client.trim (Client.text st)) "" ||
            String.eqb (Client.trim (Client.problemDescription st)) "") eqn:Hb.
  { rewrite (handleSubmit_blank host browser_fetch st Hb) in Hin.
    destruct Hin as [Hin|[]]. discriminate. }
  assert (Hreq : req = Client.submission st).
  { rewrite (handleSubmit_filled host browser_fetch st Hb) in Hin. cbv zeta in Hin.
    destruct (browser_fetch (Client.submission st)) as [response| |];
      [destruct (payload response) as [body| |];
         [destruct (JSON_parse host body)|..]|..];
      cbn [events app] in Hin;
      repeat (destruct Hin as [Hin|Hin]; [try discriminate; congruence|]);
      destruct Hin. }
  subst req. apply orb_false_iff in Hb. destruct Hb as [Ht Hd].
  assert (Ht' : Client.text st <> "").
  { intros E. rewrite E in Ht. discriminate. }
  assert (Hd' : Client.problemDescription st <> "").
  { intros E. rewrite E in Hd. discriminate. }
  split; [reflexivity|]. split; [reflexivity|].
  cbn [Client.submission body_json].
  rewrite post_api_data_object. unfold submitted. cbn [GetFieldOpt lookup String.eqb Ascii.eqb Bool.eqb].
  cbn [truthy].
  apply String.eqb_neq in Ht', Hd'. rewrite Ht', Hd'. cbn [negb orb events].
  unfold responses. cbn [flat_map app]. f_equal.
  apply responses_quiet, background_quiet.
Qed.

Lemma form_posts_are_accepted_witness :
  In (Client.Fetch (Client.submission Scenarios.filled))
     (events (Client.handleSubmit Reference.host (fun _ => Pending) Scenarios.filled)) /\
  url (Client.submission Scenarios.filled) = "/api/data" /\
  method (Client.submission Scenarios.filled) = "POST" /\
  responses (events (post_api_data Reference.host Reference.cooperative
                       (body_json (Client.submission Scenarios.filled)))) =
    [(200, acknowledgment)].
Proof.
  assert (H : In (Client.Fetch (Client.submission Scenarios.filled))
                 (events (Client.handleSubmit Reference.host (fun _ => Pending)
                            Scenarios.filled))).
  { vm_compute. right. right. left. reflexivity. }
  split; [exact H|].
  exact (form_posts_are_accepted Reference.host (fun _ => Pending) Scenarios.filled
           _ Reference.host Reference.cooperative H).
Defined.

(** X14.  When both fields contain a visible character, [handleSubmit]
    posts exactly once, and what it posts is the text of the two fields as
    typed, not trimmed: [text] as [message] and [problemDescription] as
    [description], as JSON, to [/api/data]. *)
Theorem filled_form_posts_once
    (host : Host) (browser_fetch : FetchRequest -> Settled FetchResponse)
    (st : Client.State) (c d : ascii) :
  In c (list_ascii_of_string (Client.text st)) -> Client.visible c = true ->
  In d (list_ascii_of_string (Client.problemDescription st)) -> Client.visible d = true ->
  filter Client.is_post (events (Client.handleSubmit host browser_fetch st)) =
    [Client.Fetch
       {| url := "/api/data";
          method := "POST";
          headers := [("Content-Type", "application/json")];
          body_json := JObj [("message", JStr (Client.text st));
                             ("description", JStr (Client.problemDescription st))] |}].
Proof.
  intros Hc Vc Hd Vd.
  assert (Hb : String.eqb (Client.trim (Client.text st)) "" ||
               String.eqb (Client.trim (Client.problemDescription st)) "" = false).
  { apply orb_false_iff. split; apply String.eqb_neq; eapply trim_visible; eassumption. }
  rewrite (handleSubmit_filled host browser_fetch st Hb). cbv zeta.
  destruct (browser_fetch (Client.submission st)) as [response| |];
    [destruct (payload response) as [body| |];
       [destruct (JSON_parse host body)|..]|..]; reflexivity.
Qed.

Lemma filled_form_posts_once_witness :
  In "t"%char (list_ascii_of_string (Client.text Scenarios.filled)) /\
  Client.visible "t" = true /\
  In "G"%char (list_ascii_of_string (Client.problemDescription Scenarios.filled)) /\
  Client.visible "G" = true /\
  filter Client.is_post
    (events (Client.handleSubmit Reference.host (fun _ => Fulfilled Scenarios.acknowledged)
               Scenarios.filled)) =
    [Client.Fetch
       {| url := "/api/data";
          method := "POST";
          headers := [("Content-Type", "application/json")];
          body_json := JObj [("message", JStr (Client.text Scenarios.filled));
                             ("description",
                              JStr (Client.problemDescription Scenarios.filled))] |}].
Proof.
  assert (H1 : In "t"%char (list_ascii_of_string (Client.text Scenarios.filled))).
  { left. reflexivity. }
  assert (H2 : In "G"%char (list_ascii_of_string (Client.problemDescription Scenarios.filled))).
  { left. reflexivity. }
  split; [exact H1|]. split; [reflexivity|]. split; [exact H2|]. split; [reflexivity|].
  exact (filled_form_posts_once Reference.host (fun _ => Fulfilled Scenarios.acknowledged)
           Scenarios.filled "t" "G" H1 eq_refl H2 eq_refl).
Defined.

(** X15.  When one of the two fields is empty or holds only spaces, tabs
    and line breaks, [handleSubmit] prevents the default submission and
    does nothing else: no request, no change of state. *)
Theorem blank_form_posts_nothing
    (host : Host) (browser_fetch : FetchRequest -> Settled FetchResponse)
    (st : Client.State) :
  forallb Client.white1 (list_ascii_of_string (Client.text st)) = true \/
  forallb Client.white1 (list_ascii_of_string (Client.problemDescription st)) = true ->
  Client.handleSubmit host browser_fetch st =
    mkRun [Client.PreventDefault] false (Fulfilled tt).
Proof.
  intros H. apply handleSubmit_blank.
  destruct H as [H|H]; rewrite (trim_white _ H); simpl; [reflexivity|].
  apply orb_true_r.
Qed.

Lemma blank_form_posts_nothing_witness :
  (forallb Client.white1 (list_ascii_of_string "x") = true \/
   forallb Client.white1 (list_ascii_of_string (" " ++ LF ++ " ")) = true) /\
  Client.handleSubmit Reference.host (fun _ => Fulfilled Scenarios.acknowledged)
      (Client.mkState "x" (" " ++ LF ++ " ") false) =
    mkRun [Client.PreventDefault] false (Fulfilled tt).
Proof.
  assert (H : forallb Client.white1 (list_ascii_of_string "x") = true \/
              forallb Client.white1 (list_ascii_of_string (" " ++ LF ++ " ")) = true).
  { right. reflexivity. }
  split; [exact H|].
  exact (blank_form_posts_nothing Reference.host (fun _ => Fulfilled Scenarios.acknowledged)
           (Client.mkState "x" (" " ++ LF ++ " ") false) H).
Defined.

(** X16.  [handleSubmit] never rejects: a failed request or an answer
    that is not JSON is caught and logged.  Once a submission has begun,
    [isSubmitting] is [false] again when [handleSubmit] completes, and
    stays [true] for as long as the request does not complete. *)
Theorem busy_flag_is_reset
    (host : Host) (browser_fetch : FetchRequest -> Settled FetchResponse)
    (st : Client.State) :
  let run := Client.handleSubmit host browser_fetch st in
  (settled run = Fulfilled tt \/ settled run = Pending) /\
  (In (Client.SetIsSubmitting true) (events run) ->
   (settled run = Fulfilled tt /\ Client.busy_after st (events run) = false) \/
   (settled run = Pending /\ Client.busy_after st (events run) = true)).
Proof.
  destruct (String.eqb (Client.trim (Client.text st)) "" ||
            String.eqb (Client.trim (Client.problemDescription st)) "") eqn:Hb.
  - rewrite (handleSubmit_blank host browser_fetch st Hb). cbv zeta. split; [now left|].
    intros [H|[]]. discriminate.
  - rewrite (handleSubmit_filled host browser_fetch st Hb). cbv zeta.
    destruct (browser_fetch (Client.submission st)) as [response| |];
      [destruct (payload response) as [body| |];
         [destruct (JSON_parse host body)|..]|..];
      (split; [auto|]); intros _; auto.
Qed.

(** X17.  The button looks at [text] alone: with a visible character in
    [text] and a blank [problemDescription] it is enabled, and pressing it
    runs a [handleSubmit] that does nothing. *)
Theorem enabled_button_can_do_nothing
    (host : Host) (browser_fetch : FetchRequest -> Settled FetchResponse)
    (st : Client.State) (c : ascii) :
  Client.isSubmitting st = false ->
  In c (list_ascii_of_string (Client.text st)) -> Client.visible c = true ->
  forallb Client.white1 (list_ascii_of_string (Client.problemDescription st)) = true ->
  Client.button_disabled st = false /\
  Client.handleSubmit host browser_fetch st =
    mkRun [Client.PreventDefault] false (Fulfilled tt).
Proof.
  intros Hs Hc Vc Hd. split.
  - unfold Client.button_disabled. rewrite Hs. simpl.
    apply String.eqb_neq. eapply trim_visible; eassumption.
  - apply handleSubmit_blank. rewrite (trim_white _ Hd). apply orb_true_r.
Qed.

Lemma enabled_button_can_do_nothing_witness :
  Client.isSubmitting (Client.mkState "x" "" false) = false /\
  In "x"%char (list_ascii_of_string (Client.text (Client.mkState "x" "" false))) /\
  Client.visible "x" = true /\
  Client.button_disabled (Client.mkState "x" "" false) = false /\
  Client.handleSubmit Reference.host (fun _ => Fulfilled Scenarios.acknowledged)
      (Client.mkState "x" "" false) =
    mkRun [Client.PreventDefault] false (Fulfilled tt).
Proof.
  assert (H : In "x"%char (list_ascii_of_string (Client.text (Client.mkState "x" "" false)))).
  { left. reflexivity. }
  split; [reflexivity|]. split; [exact H|]. split; [reflexivity|].
  exact (enabled_button_can_do_nothing Reference.host
           (fun _ => Fulfilled Scenarios.acknowledged)
           (Client.mkState "x" "" false) "x" eq_refl H eq_refl eq_refl).
Defined.

(** X18.  The form does not look at the status of the answer: whatever
    the status, an answer whose body is JSON is logged with [console.log]
    as the result, and the submission ends normally.  [console.error] is
    kept for a request that fails and a body that is not JSON. *)
Theorem any_status_is_logged_as_result
    (host : Host) (browser_fetch : FetchRequest -> Settled FetchResponse)
    (st : Client.State) (response : FetchResponse) (body : string) (result : JsValue) :
  In (Client.SetIsSubmitting true) (events (Client.handleSubmit host browser_fetch st)) ->
  browser_fetch (Client.submission st) = Fulfilled response ->
  payload response = Fulfilled body ->
  JSON_parse host body = Return result ->
  events (Client.handleSubmit host browser_fetch st) =
    [Client.PreventDefault; Client.SetIsSubmitting true;
     Client.Fetch (Client.submission st);
     Client.ConsoleLog result; Client.SetIsSubmitting false].
Proof.
  intros Hin Hf Hp Hj.
  destruct (String.eqb (Client.trim (Client.text st)) "" ||
            String.eqb (Client.trim (Client.problemDescription st)) "") eqn:Hb.
  { rewrite (handleSubmit_blank host browser_fetch st Hb) in Hin.
    destruct Hin as [Hin|[]]. discriminate. }
  rewrite (handleSubmit_filled host browser_fetch st Hb). cbv zeta.
  now rewrite Hf, Hp, Hj.
Qed.

Lemma any_status_is_logged_as_result_witness :
  In (Client.SetIsSubmitting true)
     (events (Client.handleSubmit Reference.host (fun _ => Fulfilled Scenarios.failed)
                Scenarios.filled)) /\
  status Scenarios.failed = 500 /\
  events (Client.handleSubmit Reference.host (fun _ => Fulfilled Scenarios.failed)
            Scenarios.filled) =
    [Client.PreventDefault; Client.SetIsSubmitting true;
     Client.Fetch (Client.submission Scenarios.filled);
     Client.ConsoleLog (JObj [("error", JStr "Failed to submit request")]);
     Client.SetIsSubmitting false].
Proof.
  assert (H : In (Client.SetIsSubmitting true)
                 (events (Client.handleSubmit Reference.host
                            (fun _ => Fulfilled Scenarios.failed) Scenarios.filled))).
  { vm_compute. right. left. reflexivity. }
  split; [exact H|]. split; [reflexivity|].
  refine (any_status_is_logged_as_result Reference.host (fun _ => Fulfilled Scenarios.failed)
            Scenarios.filled Scenarios.failed _ _ H eq_refl eq_refl _).
  vm_compute. reflexivity.
Defined.

(** * The gap in the optional chaining *)

(** X12.  [response.choices[0]?.message?.content] guards against a
    missing choice and a missing message, not against a missing
    [choices]: when a completion arrives without that array, both
    [generateProblemDescription] and [generateCodeResponse] are rejected
    with a [TypeError], after their one call. *)
Theorem missing_choices_rejects
    (host : Host) (w : World) (text : JsValue) (prompt_text : string) (response : JsValue) :
  ToString (Number_toString host) text = Return prompt_text ->
  is_nullish response = false ->
  is_nullish (GetFieldOpt response "choices") = true ->
  (chat_completions_create w (problem_request (problem_prompt ++ prompt_text)) =
     Fulfilled response ->
   exists reason,
     generateProblemDescription host w text =
       mkRun [ChatCompletionsCreate (problem_request (problem_prompt ++ prompt_text))]
             true (Rejected (ErrorObject TypeError reason))) /\
  (chat_completions_create w (code_request (code_prompt ++ prompt_text)) =
     Fulfilled response ->
   exists reason,
     generateCodeResponse host w text =
       mkRun [ChatCompletionsCreate (code_request (code_prompt ++ prompt_text))]
             true (Rejected (ErrorObject TypeError reason))).
Proof.
  intros Ht Hr Hc.
  assert (F : exists reason,
             first_choice_content response = Throws (ErrorObject TypeError reason)).
  { unfold first_choice_content. rewrite (GetField_defined response "choices" Hr).
    cbn [cbind]. destruct (GetFieldOpt response "choices"); try discriminate;
      eexists; reflexivity. }
  destruct F as [reason F]. split; intros Hchat; exists reason.
  - unfold generateProblemDescription, plus. rewrite Ht.
    cbn [cbind lift bind ret emit await settled events suspended app orb].
    rewrite Hchat.
    cbn [cbind lift bind ret emit await settled events suspended app orb].
    rewrite F. reflexivity.
  - unfold generateCodeResponse, plus. rewrite Ht.
    cbn [cbind lift bind ret emit await settled events suspended app orb].
    rewrite Hchat.
    cbn [cbind lift bind ret emit await settled events suspended app orb].
    rewrite F. reflexivity.
Qed.

Lemma missing_choices_rejects_witness :
  ToString Reference.Number_toString (JStr "two sum solution...") =
    Return "two sum solution..." /\
  is_nullish Scenarios.no_choices_field = false /\
  is_nullish (GetFieldOpt Scenarios.no_choices_field "choices") = true /\
  exists reason,
    generateCodeResponse Reference.host Scenarios.malformed (JStr "two sum solution...") =
      mkRun [ChatCompletionsCreate (code_request (code_prompt ++ "two sum solution..."))]
            true (Rejected (ErrorObject TypeError reason)).
Proof.
  split; [reflexivity|]. split; [reflexivity|]. split; [reflexivity|].
  exact (proj2 (missing_choices_rejects Reference.host Scenarios.malformed
                  (JStr "two sum solution...") "two sum solution..."
                  Scenarios.no_choices_field eq_refl eq_refl eq_refl) eq_refl).
Defined.

Lemma busy_flag_is_reset_witness :
  In (Client.SetIsSubmitting true)
     (events (Client.handleSubmit Reference.host
                (fun _ => Rejected (ErrorObject TypeError "Failed to fetch"))
                Scenarios.filled)) /\
  settled (Client.handleSubmit Reference.host
             (fun _ => Rejected (ErrorObject TypeError "Failed to fetch"))
             Scenarios.filled) = Fulfilled tt /\
  Client.busy_after Scenarios.filled
    (events (Client.handleSubmit Reference.host
               (fun _ => Rejected (ErrorObject TypeError "Failed to fetch"))
               Scenarios.filled)) = false.
Proof.
  assert (H : In (Client.SetIsSubmitting true)
                 (events (Client.handleSubmit Reference.host
                            (fun _ => Rejected (ErrorObject TypeError "Failed to fetch"))
                            Scenarios.filled))).
  { vm_compute. right. left. reflexivity. }
  split; [exact H|].
  destruct (proj2 (busy_flag_is_reset Reference.host
                     (fun _ => Rejected (ErrorObject TypeError "Failed to fetch"))
                     Scenarios.filled) H) as [[Hs Hb]|[Hs _]].
  - split; [exact Hs | exact Hb].
  - vm_compute in Hs. discriminate.
Defined.
